(** * Table layout of generate_pdf.py, embedded over a model of the fpdf2 surface

    The program reads a data frame, draws it as a bordered table through
    fpdf2 and writes the document.  The embedding keeps the code's shape:

    - Python [str] is a list of code points; lengths are binary64 numbers
      ([PrimFloat]), as fpdf2 holds them;
    - the [PDFGenerator] object and the caller's [DataFrame] live in one
      store, threaded through a state-and-exception monad in which the
      store survives a raised exception, as Python objects do;
    - fpdf2's [cell], [ln], [set_y], [add_page] and the automatic page
      break are written out, [header] and [footer] being the overrides of
      the class;
    - page geometry, the font that [_setup_font] finds, the clock and the
      interpreter's call-depth budget are read from an environment.

    Font registration and glyph coverage belong to the host: the model
    describes the runs in which the selected font can draw the text. *)

From Stdlib Require Import List ZArith NArith Bool Arith Lia QArith Sorted.
From Stdlib Require Import PrimFloat Uint63 DecimalNat.
From Stdlib Require String Ascii.
Import ListNotations.
Close Scope Q_scope.
Close Scope Z_scope.
Open Scope nat_scope.

Set Implicit Arguments.

(** ** Text *)

(** A Python [str]: its code points. *)
Definition text := list N.

Definition digit_char (d : N) : N := (48 + d)%N.

Fixpoint uint_text (u : Decimal.uint) : text :=
  match u with
  | Decimal.Nil => []
  | Decimal.D0 u => digit_char 0 :: uint_text u
  | Decimal.D1 u => digit_char 1 :: uint_text u
  | Decimal.D2 u => digit_char 2 :: uint_text u
  | Decimal.D3 u => digit_char 3 :: uint_text u
  | Decimal.D4 u => digit_char 4 :: uint_text u
  | Decimal.D5 u => digit_char 5 :: uint_text u
  | Decimal.D6 u => digit_char 6 :: uint_text u
  | Decimal.D7 u => digit_char 7 :: uint_text u
  | Decimal.D8 u => digit_char 8 :: uint_text u
  | Decimal.D9 u => digit_char 9 :: uint_text u
  end.

(** [str(n)] for a non-negative [int]. *)
Definition str_nat (n : nat) : text := uint_text (Nat.to_uint n).

(** [s[:n]] *)
Definition slice_to (n : nat) (s : text) : text := firstn n s.

(** U+2116, the numero sign heading the index column. *)
Definition numero_sign : text := [8470%N].

(** 'Katalog tovarov' in Cyrillic, the title of every page. *)
Definition page_title : text :=
  [1050; 1072; 1090; 1072; 1083; 1086; 1075; 32;
   1090; 1086; 1074; 1072; 1088; 1086; 1074]%N.

(** 'Vsego zapisej: ' in Cyrillic. *)
Definition total_prefix : text :=
  [1042; 1089; 1077; 1075; 1086; 32; 1079; 1072; 1087; 1080; 1089; 1077;
   1081; 58; 32]%N.

(** 'Sgenerirovano: ' in Cyrillic. *)
Definition generated_prefix : text :=
  [1057; 1075; 1077; 1085; 1077; 1088; 1080; 1088; 1086; 1074; 1072; 1085;
   1086; 58; 32]%N.

(** ' | Str. ' in Cyrillic. *)
Definition page_infix : text := [32; 124; 32; 1057; 1090; 1088; 46; 32]%N.

(** ** Numbers *)

(** An [int] used where fpdf2 computes with [float]. *)
Definition float_of_nat (n : nat) : float :=
  PrimFloat.of_uint63 (Uint63.of_Z (Z.of_nat n)).

(** The binary64 quotient of two [int]s, for a non-zero divisor. *)
Definition float_quot (a b : nat) : float :=
  (float_of_nat a / float_of_nat b)%float.

(** ** The drawing surface *)

Inductive FontStyle := Regular | Bold.
Inductive Align := AlignL | AlignC.
Inductive XPos := XRight | XLMargin.
Inductive YPos := YTop | YNext.

Record Font := mkFont {
  family : text;
  fstyle : FontStyle;
  size_pt : Z }.

Definition Color := (Z * Z * Z)%type.

(** One drawn cell, with the style in force when it was drawn. *)
Record Drawn := mkDrawn {
  on_page : nat;
  at_x : float;
  at_y : float;
  width : float;
  height : float;
  txt : text;
  border : bool;
  align : Align;
  fill : bool;
  d_font : option Font;
  d_fill_color : Color;
  d_text_color : Color }.

(** The part of the [FPDF] object the program drives. *)
Record FPDF := mkFPDF {
  page : nat;
  x : float;
  y : float;
  lasth : float;
  font : option Font;
  fill_color : Color;
  text_color : Color;
  in_footer : bool;
  content : list Drawn }.

Inductive Exn := ZeroDivisionError | RecursionError.

Inductive Result (A : Type) :=
| Ok (a : A)
| Raise (e : Exn).

Arguments Raise {A} e.

Section Engine.

(** Column labels and rows of the data frame; [str(col)] and
    [str(row[col])] are pandas' and Python's. *)
Variable Label : Type.
Variable Row : Type.
Variable str_label : Label -> text.
Variable str_item : Row -> Label -> text.

Record DataFrame := mkDataFrame {
  columns : list Label;
  rows : list Row }.

(** What the host and fpdf2 fix: the page in user units, the family
    [_setup_font] settles on, the formatted time of the k-th clock read,
    and how many nested page breaks the interpreter's stack allows. *)
Record Env := mkEnv {
  page_w : float;
  page_h : float;
  l_margin : float;
  t_margin : float;
  r_margin : float;
  font_name : text;
  strftime_now : nat -> text;
  recursion_limit : nat }.

Variable env : Env.

(** The store: the generator, the caller's data frame, the number of
    clock reads so far and the files written. *)
Record World := mkWorld {
  pdf : FPDF;
  df : DataFrame;
  clock : nat;
  files : list (text * list Drawn) }.

Definition M (A : Type) : Type := World -> Result A * World.

Definition ret {A} (a : A) : M A := fun w => (Ok a, w).

Definition bind {A B} (m : M A) (k : A -> M B) : M B :=
  fun w =>
    match m w with
    | (Ok a, w') => k a w'
    | (Raise e, w') => (Raise e, w')
    end.

Definition raise {A} (e : Exn) : M A := fun w => (Raise e, w).

Notation "x <- m ;; k" := (bind m (fun x => k))
  (at level 100, m at next level, right associativity).
Notation "m ;; k" := (bind m (fun _ => k))
  (at level 100, right associativity).

Definition gets {A} (f : FPDF -> A) : M A := fun w => (Ok (f (pdf w)), w).

(** Reading the caller's data frame. *)
Definition ask {A} (f : DataFrame -> A) : M A := fun w => (Ok (f (df w)), w).

Definition modify (f : FPDF -> FPDF) : M unit :=
  fun w => (Ok tt, mkWorld (f (pdf w)) (df w) (clock w) (files w)).

(** [for v in l: body(v)] *)
Fixpoint for_each {A} (l : list A) (body : A -> M unit) : M unit :=
  match l with
  | [] => ret tt
  | v :: l' => body v ;; for_each l' body
  end.

(** [for i, v in enumerate(l, start): body(i, v)] *)
Fixpoint for_enumerate {A} (start : nat) (l : list A)
    (body : nat -> A -> M unit) : M unit :=
  match l with
  | [] => ret tt
  | v :: l' => body start v ;; for_enumerate (S start) l' body
  end.

(** *** Field updates *)

Definition with_xy (vx vy : float) (s : FPDF) : FPDF :=
  mkFPDF (page s) vx vy (lasth s) (font s) (fill_color s) (text_color s)
         (in_footer s) (content s).

Definition with_font (f : option Font) (s : FPDF) : FPDF :=
  mkFPDF (page s) (x s) (y s) (lasth s) f (fill_color s) (text_color s)
         (in_footer s) (content s).

Definition with_fill_color (c : Color) (s : FPDF) : FPDF :=
  mkFPDF (page s) (x s) (y s) (lasth s) (font s) c (text_color s)
         (in_footer s) (content s).

Definition with_text_color (c : Color) (s : FPDF) : FPDF :=
  mkFPDF (page s) (x s) (y s) (lasth s) (font s) (fill_color s) c
         (in_footer s) (content s).

Definition with_in_footer (b : bool) (s : FPDF) : FPDF :=
  mkFPDF (page s) (x s) (y s) (lasth s) (font s) (fill_color s)
         (text_color s) b (content s).

(** *** fpdf2 *)

(** [set_auto_page_break(auto=True, margin=15)] in [__init__]. *)
Definition b_margin : float := 15%float.

Definition page_break_trigger : float := (page_h env - b_margin)%float.

Definition set_font (fam : text) (st : FontStyle) (sz : Z) : M unit :=
  modify (with_font (Some (mkFont fam st sz))).

Definition set_fill_color (r g b : Z) : M unit :=
  modify (with_fill_color (r, g, b)).

Definition set_text_color (r g b : Z) : M unit :=
  modify (with_text_color (r, g, b)).

(** [ln(h)]: back to the left margin, down by [h] or by the height of the
    last cell. *)
Definition move_ln (h : option float) (s : FPDF) : FPDF :=
  with_xy (l_margin env)
          (y s + match h with Some v => v | None => lasth s end)%float s.

Definition ln (h : option float) : M unit := modify (move_ln h).

(** [set_y(v)]: a negative [v] counts from the bottom of the page. *)
Definition move_y (v : float) (s : FPDF) : FPDF :=
  with_xy (l_margin env)
          (if (0 <=? v)%float then v else (page_h env + v)%float) s.

Definition set_y (v : float) : M unit := modify (move_y v).

(** [will_page_break(h)]: automatic breaks are on and never fire inside
    the footer. *)
Definition will_page_break (h : float) (s : FPDF) : bool :=
  (page_break_trigger <? y s + h)%float && negb (in_footer s).

(** A zero width runs to the right margin. *)
Definition cell_width (w : float) (s : FPDF) : float :=
  if (w =? 0)%float then (page_w env - r_margin env - x s)%float else w.

(** What a cell leaves on the page, at the cursor and in the current
    style. *)
Definition drawn_cell (w h : float) (t : text) (bd : bool) (al : Align)
    (fl : bool) (s : FPDF) : Drawn :=
  mkDrawn (page s) (x s) (y s) (cell_width w s) h t bd al fl
          (font s) (fill_color s) (text_color s).

(** The drawing half of [cell], and where it leaves the cursor. *)
Definition render_cell (w h : float) (t : text) (bd : bool) (al : Align)
    (fl : bool) (nx : XPos) (ny : YPos) (s : FPDF) : FPDF :=
  mkFPDF (page s)
         (match nx with
          | XRight => (x s + cell_width w s)%float
          | XLMargin => l_margin env
          end)
         (match ny with YTop => y s | YNext => (y s + h)%float end)
         h (font s) (fill_color s) (text_color s) (in_footer s)
         (content s ++ [drawn_cell w h t bd al fl s]).

(** [_beginpage] *)
Definition beginpage (s : FPDF) : FPDF :=
  mkFPDF (S (page s)) (l_margin env) (t_margin env) (lasth s) (font s)
         (fill_color s) (text_color s) (in_footer s) (content s).

(** The font is put back only when one had been selected. *)
Definition restore_style (f : option Font) (fc tc : Color) (s : FPDF) : FPDF :=
  with_text_color tc
    (with_fill_color fc
       (match f with Some _ => with_font f s | None => s end)).

(** [add_page]: footer of the page being left, new page, header of the
    new page; font and colours are saved and put back around both. *)
Definition add_page_with (footer header : M unit) : M unit :=
  s <- gets (fun s => s) ;;
  (if (0 <? page s)%nat
   then modify (with_in_footer true) ;; footer ;; modify (with_in_footer false)
   else ret tt) ;;
  modify beginpage ;;
  modify (restore_style (font s) (fill_color s) (text_color s)) ;;
  header ;;
  modify (restore_style (font s) (fill_color s) (text_color s)).

(** [_perform_page_break]: the abscissa survives the break. *)
Definition perform_page_break (footer header : M unit) : M unit :=
  x0 <- gets x ;;
  add_page_with footer header ;;
  modify (fun s => with_xy x0 (y s) s).

Definition cell_fun : Type :=
  float -> float -> text -> bool -> Align -> bool -> XPos -> YPos -> M unit.

(** *** PDFGenerator *)

(** [header]: the page title. *)
Definition header_with (cell : cell_fun) : M unit :=
  set_font (font_name env) Bold 16 ;;
  set_text_color 44 62 80 ;;
  cell 0%float 10%float page_title false AlignC false XLMargin YNext ;;
  ln (Some 5%float).

(** [datetime.now().strftime(...)] *)
Definition now_text : M text :=
  fun w => (Ok (strftime_now env (clock w)),
            mkWorld (pdf w) (df w) (S (clock w)) (files w)).

(** The footer line, from the formatted time and [page_no()]. *)
Definition footer_text (timestamp : text) (page_no : nat) : text :=
  generated_prefix ++ timestamp ++ page_infix ++ str_nat page_no.

(** [footer]: generation time and page number. *)
Definition footer_with (cell : cell_fun) : M unit :=
  set_y (-15)%float ;;
  set_font (font_name env) Regular 8 ;;
  set_text_color 150 150 150 ;;
  timestamp <- now_text ;;
  page_no <- gets page ;;
  cell 0%float 10%float (footer_text timestamp page_no)
       false AlignC false XRight YTop.

(** [cell]: break the page first when the cell would pass the trigger.
    The break runs [footer] and [header], which call [cell] again; [d]
    bounds that nesting. *)
Fixpoint cell_at (d : nat) : cell_fun :=
  fun w h t bd al fl nx ny =>
    brk <- gets (will_page_break h) ;;
    (if brk then
       match d with
       | O => raise RecursionError
       | S d' => perform_page_break (footer_with (cell_at d'))
                                    (header_with (cell_at d'))
       end
     else ret tt) ;;
    modify (render_cell w h t bd al fl nx ny).

Definition cell : cell_fun := cell_at (recursion_limit env).
Definition header : M unit := header_with cell.
Definition footer : M unit := footer_with cell.
Definition add_page : M unit := add_page_with footer header.

(** [a / b] on two [int]s. *)
Definition truediv (a b : nat) : M float :=
  match b with
  | O => raise ZeroDivisionError
  | _ => ret (float_quot a b)
  end.

Definition available_width : nat := 190.
Definition num_col_width : nat := 12.

(** The cells of the table header, drawn once. *)
Definition table_header (cols : list Label) (col_width : float) : M unit :=
  set_fill_color 52 73 94 ;;
  set_text_color 255 255 255 ;;
  set_font (font_name env) Bold 8 ;;
  cell (float_of_nat num_col_width) 10%float numero_sign true AlignC true
       XRight YTop ;;
  for_each cols (fun col =>
    let header := slice_to 15 (str_label col) in
    cell col_width 10%float header true AlignC true XRight YTop) ;;
  ln None.

(** The body of the loop over [enumerate(df.iterrows())]. *)
Definition data_row (cols : list Label) (col_width : float)
    (i : nat) (row : Row) : M unit :=
  fill <- (if (i mod 2 =? 0)%nat
           then set_fill_color 245 245 245 ;; ret true
           else ret false) ;;
  cell (float_of_nat num_col_width) 8%float (str_nat (i + 1)) true AlignC fill
       XRight YTop ;;
  for_each cols (fun col =>
    let value := slice_to 20 (str_item row col) in
    cell col_width 8%float value true AlignL fill XRight YTop) ;;
  ln None.

(** The closing line with [len(df)]. *)
Definition total_line : M unit :=
  ln (Some 5%float) ;;
  set_font (font_name env) Bold 12 ;;
  set_text_color 44 62 80 ;;
  n <- ask (fun d => length (rows d)) ;;
  cell 0%float 10%float (total_prefix ++ str_nat n) false AlignL false
       XLMargin YNext.

Definition add_products_table : M unit :=
  add_page ;;
  cols <- ask columns ;;
  let num_cols := length cols in
  col_width <- truediv (available_width - num_col_width) num_cols ;;
  table_header cols col_width ;;
  set_text_color 0 0 0 ;;
  set_font (font_name env) Regular 7 ;;
  rs <- ask rows ;;
  for_enumerate 0 rs (data_row cols col_width) ;;
  total_line.

(** [PDFGenerator()]: a document with no page, no font selected, black
    colours, the cursor at the margins. *)
Definition new_generator : FPDF :=
  mkFPDF 0 (l_margin env) (t_margin env) 0%float None (0, 0, 0)%Z (0, 0, 0)%Z
         false [].

(** [output(path)]: close the last page with its footer and write the
    document. *)
Definition output (path : text) : M unit :=
  pg <- gets page ;;
  (if (pg =? 0)%nat then add_page else ret tt) ;;
  modify (with_in_footer true) ;;
  footer ;;
  modify (with_in_footer false) ;;
  (fun w => (Ok tt, mkWorld (pdf w) (df w) (clock w)
                            ((path, content (pdf w)) :: files w))).

Definition generate_pdf_from_data (output_path : text) : M text :=
  (fun w => (Ok tt, mkWorld new_generator (df w) (clock w) (files w))) ;;
  add_products_table ;;
  output output_path ;;
  ret output_path.

Definition generate_pdf_from_template (template_content : text)
    (output_path : text) : M text :=
  generate_pdf_from_data output_path.

End Engine.

Arguments page_break_trigger env : simpl never.

(** ** The page furniture in closed form *)

Section Furniture.

Variable env : Env.

(** The cursor and style with which [header] draws the title. *)
Definition title_style (s : FPDF) : FPDF :=
  with_text_color (44, 62, 80)%Z
    (with_font (Some (mkFont (font_name env) Bold 16)) s).

Definition title_cell (s : FPDF) : Drawn :=
  drawn_cell env 0%float 10%float page_title false AlignC false (title_style s).

(** The state [header] leaves. *)
Definition header_state (s : FPDF) : FPDF :=
  move_ln env (Some 5%float)
    (render_cell env 0%float 10%float page_title false AlignC false
                 XLMargin YNext (title_style s)).

(** The cursor and style with which [footer] draws its line. *)
Definition footer_style (s : FPDF) : FPDF :=
  with_text_color (150, 150, 150)%Z
    (with_font (Some (mkFont (font_name env) Regular 8))
       (move_y env (-15)%float s)).

Definition footer_cell (k : nat) (s : FPDF) : Drawn :=
  drawn_cell env 0%float 10%float
             (footer_text (strftime_now env k) (page s)) false AlignC false
             (footer_style s).

(** The state [footer] leaves when the clock has been read [k] times. *)
Definition footer_state (k : nat) (s : FPDF) : FPDF :=
  render_cell env 0%float 10%float
              (footer_text (strftime_now env k) (page s)) false AlignC false
              XRight YTop (footer_style s).

(** A new page opened from [s], with the style of [s0] put back. *)
Definition open_page (s0 s : FPDF) : FPDF :=
  restore_style (font s0) (fill_color s0) (text_color s0)
    (header_state
       (restore_style (font s0) (fill_color s0) (text_color s0)
          (beginpage env s))).

(** The state an automatic page break leaves. *)
Definition break_state (k : nat) (s : FPDF) : FPDF :=
  let s' := open_page s (with_in_footer false
                           (footer_state k (with_in_footer true s))) in
  with_xy (x s) (y s') s'.

(** The first page of a new document. *)
Definition first_page : FPDF := open_page (new_generator env) (new_generator env).

(** The geometry leaves room, under the title, for a header row and for a
    data row, and the interpreter allows one nested page break. *)
Definition sane_geometry : bool :=
  (1 <=? recursion_limit env)%nat
  && negb (page_break_trigger env <? t_margin env + 10)%float
  && negb (page_break_trigger env <? t_margin env + 10 + 5 + 10)%float
  && negb (page_break_trigger env <? t_margin env + 10 + 5 + 8)%float.

End Furniture.

(** ** Reading the drawn cells *)

Definition align_eqb (a b : Align) : bool :=
  match a, b with
  | AlignL, AlignL | AlignC, AlignC => true
  | _, _ => false
  end.

(** Cells of data rows: bordered, 8 high. *)
Definition is_data_cell (c : Drawn) : bool :=
  border c && (height c =? 8)%float.

(** Cells of the table header: bordered, 10 high. *)
Definition is_header_cell (c : Drawn) : bool :=
  border c && (height c =? 10)%float.

(** The closing line: borderless and left aligned. *)
Definition is_total_line (c : Drawn) : bool :=
  negb (border c) && align_eqb (align c) AlignL.

(** The cells of the [i]-th data row among the data cells of a table of
    [n] columns. *)
Definition row_cells (n i : nat) (data : list Drawn) : list Drawn :=
  firstn (S n) (skipn (i * S n) data).

Definition data_cells (l : list Drawn) : list Drawn := filter is_data_cell l.

(** A cell on page [p] at ordinate [yy] with the given height, border,
    alignment, fill and text. *)
Definition cell_like (p : nat) (yy h : float) (bd : bool) (al : Align)
    (fl : bool) (t : text) (c : Drawn) : Prop :=
  on_page c = p /\ at_y c = yy /\ height c = h /\ border c = bd /\
  align c = al /\ fill c = fl /\ txt c = t.

(** Page furniture: borderless and centred. *)
Definition furniture (c : Drawn) : Prop :=
  border c = false /\ align c = AlignC.

(** What a cell call draws before its own cell: nothing when the cell
    fits, else the footer of the page left and the title of page [p']. *)
Definition page_turn (s : FPDF) (brk : bool) (furn : list Drawn) (p' : nat)
  : Prop :=
  if brk then
    exists f t, furn = [f; t] /\
      furniture f /\ on_page f = page s /\
      furniture t /\ txt t = page_title /\ on_page t = S (page s) /\
      p' = S (page s)
  else furn = [] /\ p' = page s.

Section Bands.

Variable Label : Type.
Variable Row : Type.
Variable str_label : Label -> text.
Variable str_item : Row -> Label -> text.

(** The band of data row [i] on page [p]: the index cell, then one cell
    per column, all at one ordinate. *)
Definition row_band (cols : list Label) (i : nat) (row : Row) (p : nat)
    (band : list Drawn) : Prop :=
  exists idx vals yy,
    band = idx :: vals /\
    cell_like p yy 8%float true AlignC (i mod 2 =? 0) (str_nat (i + 1)) idx /\
    Forall2 (fun col c =>
               cell_like p yy 8%float true AlignL (i mod 2 =? 0)
                         (slice_to 20 (str_item row col)) c)
            cols vals.

(** The band of the table header on page [p]. *)
Definition header_band (cols : list Label) (p : nat) (band : list Drawn)
  : Prop :=
  exists mark names yy,
    band = mark :: names /\
    cell_like p yy 10%float true AlignC true numero_sign mark /\
    Forall2 (fun col c =>
               cell_like p yy 10%float true AlignC true
                         (slice_to 15 (str_label col)) c)
            cols names.

(** The cells drawn by the loop over the rows, from row [i] on: before
    each band, the borderless furniture of a page turn, if any. *)
Inductive rows_log (cols : list Label) : nat -> list Row -> list Drawn -> Prop :=
| rows_log_nil i : rows_log cols i [] []
| rows_log_cons i r rs furn p band rest :
    Forall furniture furn ->
    row_band cols i r p band ->
    rows_log cols (S i) rs rest ->
    rows_log cols i (r :: rs) (furn ++ band ++ rest).

(** A new generator next to the caller's frame, the clock read [k]
    times and the files [fs] on disk. *)
Definition new_world (env : Env) (df0 : DataFrame Label Row) (k : nat)
    (fs : list (text * list Drawn)) : World Label Row :=
  mkWorld (new_generator env) df0 k fs.

(** A computation that leaves the caller's frame as it found it, whether
    it returns or raises. *)
Definition keeps_frame (A : Type) (m : M Label Row A) : Prop :=
  forall w, df (snd (m w)) = df w.

(** The cells [add_products_table] has drawn when it returns or raises. *)
Definition table_cells (env : Env) (wd : World Label Row) : list Drawn :=
  content (pdf (snd (add_products_table str_label str_item env wd))).

End Bands.

(** A header cell of the table on page [p]. *)
Definition header_band_on_page (cells : list Drawn) (p : nat) : Prop :=
  exists c, In c cells /\ on_page c = p /\ is_header_cell c = true.

(** Every page that carries a cell carries a header cell of the table. *)
Definition header_band_on_every_page (cells : list Drawn) : Prop :=
  forall c, In c cells -> header_band_on_page cells (on_page c).

(** ** Column widths *)

(** [col_width] as [add_products_table] computes it for a non-zero number
    of columns. *)
Definition col_width (num_cols : nat) : float :=
  float_quot (available_width - num_col_width) num_cols.

(** The widths of one band added up from the left, as the abscissa
    advances. *)
Definition widths_sum (num_cols : nat) : float :=
  fold_left PrimFloat.add (repeat (col_width num_cols) num_cols)
            (float_of_nat num_col_width).

(** The same quotient and sum in exact arithmetic. *)
Definition exact_col_width (num_cols : nat) : Q :=
  (inject_Z (Z.of_nat (available_width - num_col_width))
   / inject_Z (Z.of_nat num_cols))%Q.

Definition exact_widths_sum (num_cols : nat) : Q :=
  (inject_Z (Z.of_nat num_col_width)
   + inject_Z (Z.of_nat num_cols) * exact_col_width num_cols)%Q.

(** Within 2^-20 of the available width. *)
Definition near_available_width (v : float) : bool :=
  ((float_of_nat available_width - 1 / 1048576 <=? v)
   && (v <=? float_of_nat available_width + 1 / 1048576))%float.

(** ** Sample inputs *)

(** fpdf2's A4 page in millimetres with its default 1 cm margins. *)
Definition a4 : Env :=
  mkEnv (59528 / 100 / (72 / (254 / 10)))%float
        (84189 / 100 / (72 / (254 / 10)))%float
        10%float 10%float 10%float
        [65; 114; 105; 97; 108]%N
        (fun k => [48; 52; 46; 49; 49; 46; 50; 48; 50; 54; 32; 49; 50; 58; 48]%N
                  ++ str_nat k)
        1000.

(** Rows as lists of texts, read by position of the label. *)
Fixpoint item_at (labels : list text) (r : list text) (c : text) : text :=
  match labels, r with
  | l :: labels', v :: r' =>
      if list_eq_dec N.eq_dec l c then v else item_at labels' r' c
  | _, _ => []
  end.

Definition text_of (l : list nat) : text := map N.of_nat l.

(** Name, Price *)
Definition shop_labels : list text :=
  [text_of [78; 97; 109; 101]; text_of [80; 114; 105; 99; 101]].

(** Widget 9.99, Gadget 19.99, Gizmo 29.99 *)
Definition shop_rows : list (list text) :=
  [[text_of [87; 105; 100; 103; 101; 116]; text_of [57; 46; 57; 57]];
   [text_of [71; 97; 100; 103; 101; 116]; text_of [49; 57; 46; 57; 57]];
   [text_of [71; 105; 122; 109; 111]; text_of [50; 57; 46; 57; 57]]].

Definition shop : DataFrame text (list text) := mkDataFrame shop_labels shop_rows.

(** Thirty-one rows: one more than the first page holds. *)
Definition long_shop : DataFrame text (list text) :=
  mkDataFrame shop_labels (repeat (hd [] shop_rows) 31).

(** A frame with rows and no column. *)
Definition no_columns : DataFrame text (list text) :=
  mkDataFrame [] [[]; []; []].

(** Three columns. *)
Definition three_columns : DataFrame text (list text) :=
  mkDataFrame [text_of [97]; text_of [98]; text_of [99]]
              [[text_of [49]; text_of [50]; text_of [51]]].

(** [str(col)] of a label that is a [str]. *)
Definition str_text (c : text) : text := c.

Definition run_table (e : Env) (d : DataFrame text (list text)) :=
  add_products_table str_text (item_at (columns d)) e (new_world e d 0 []).

Definition cells_of (e : Env) (d : DataFrame text (list text)) : list Drawn :=
  table_cells str_text (item_at (columns d)) e (new_world e d 0 []).

(** A generator on page 1 whose cursor stands too low for another row. *)
Definition low_cursor : World text (list text) :=
  mkWorld (mkFPDF 1 10%float 275%float 8%float
                  (Some (mkFont (font_name a4) Regular 7))
                  (245, 245, 245)%Z (0, 0, 0)%Z false [])
          shop 0 [].

(** ** Pages, places and styles of the drawn cells *)

(** Page furniture among the drawn cells: borderless and centred. *)
Definition is_furniture_cell (c : Drawn) : bool :=
  negb (border c) && align_eqb (align c) AlignC.

Definition page_and_text (c : Drawn) : nat * text := (on_page c, txt c).

(** Where a cell starts and how wide it is. *)
Definition place (c : Drawn) : float * float := (at_x c, width c).

Section Pages.

Variable env : Env.

(** Title and footer of page [p] in a document begun when the clock had
    been read [k0] times. *)
Definition page_furniture (k0 p : nat) : list (nat * text) :=
  [(p, page_title);
   (p, footer_text (strftime_now env (k0 + (p - 1))) p)].

(** Titles and footers of pages 1 to [m]. *)
Definition pages_furniture (k0 m : nat) : list (nat * text) :=
  flat_map (page_furniture k0) (seq 1 m).

(** The width of a cell asked to be [w] wide at abscissa [x0]. *)
Definition width_at (w x0 : float) : float :=
  if (w =? 0)%float then (page_w env - r_margin env - x0)%float else w.

(** The places of cells of widths [ws] drawn side by side from [x0], and
    the abscissa after the last. *)
Fixpoint band_places (x0 : float) (ws : list float) : list (float * float) :=
  match ws with
  | [] => []
  | w :: ws' =>
      (x0, width_at w x0) :: band_places (x0 + width_at w x0)%float ws'
  end.

Fixpoint band_end (x0 : float) (ws : list float) : float :=
  match ws with
  | [] => x0
  | w :: ws' => band_end (x0 + width_at w x0)%float ws'
  end.

(** The widths asked for in one band of a table of [n] columns. *)
Definition band_widths (n : nat) : list float :=
  float_of_nat num_col_width :: repeat (col_width n) n.

(** The places of one band, from the left margin. *)
Definition table_places (n : nat) : list (float * float) :=
  band_places (l_margin env) (band_widths n).

(** The cell ends at or above the page-break trigger. *)
Definition within_page (c : Drawn) : Prop :=
  (page_break_trigger env <? at_y c + height c)%float = false.

(** Bold 8, white on dark blue, filled. *)
Definition header_style (c : Drawn) : Prop :=
  d_font c = Some (mkFont (font_name env) Bold 8) /\
  d_text_color c = (255, 255, 255)%Z /\
  d_fill_color c = (52, 73, 94)%Z /\
  fill c = true.

(** Regular 7, black, and light grey where filled. *)
Definition data_style (c : Drawn) : Prop :=
  d_font c = Some (mkFont (font_name env) Regular 7) /\
  d_text_color c = (0, 0, 0)%Z /\
  (fill c = true -> d_fill_color c = (245, 245, 245)%Z).

(** What holds of every cell of a table: cells of the table and the
    closing line end above the trigger, header and data cells wear
    their style. *)
Definition sound_cell (c : Drawn) : Prop :=
  (border c = true \/ align c = AlignL -> within_page c) /\
  (is_header_cell c = true -> header_style c) /\
  (is_data_cell c = true -> data_style c).

(** The generator is on a page, outside the footer; the clock has been
    read once per page closed; the furniture drawn so far is that of the
    pages closed and the title of the page open. *)
Definition paged (k0 : nat) (s : FPDF) (k : nat) : Prop :=
  in_footer s = false /\
  0 < page s /\
  k = k0 + (page s - 1) /\
  map page_and_text (filter is_furniture_cell (content s))
  = pages_furniture k0 (page s - 1) ++ [(page s, page_title)].

(** The bordered cells drawn so far stand at [places], every cell is
    sound and no cell is on a page before that of the cell drawn before
    it. *)
Definition drawn_so_far (k0 : nat) (places : list (float * float))
    (s : FPDF) (k : nat) : Prop :=
  paged k0 s k /\
  map place (filter border (content s)) = places /\
  Forall sound_cell (content s) /\
  Forall (fun c => on_page c <= page s) (content s) /\
  StronglySorted le (map on_page (content s)).

End Pages.

Section Stages.

Variable Label : Type.
Variable Row : Type.
Variable env : Env.

(** A point of a run: what has been drawn, the abscissa, the style in
    force, the caller's frame and the files on disk. *)
Definition stage (k0 : nat) (places : list (float * float)) (xc : float)
    (f : Font) (fc tc : Color) (df0 : DataFrame Label Row)
    (fs : list (text * list Drawn)) (w : World Label Row) : Prop :=
  drawn_so_far env k0 places (pdf w) (clock w) /\
  x (pdf w) = xc /\
  font (pdf w) = Some f /\
  fill_color (pdf w) = fc /\
  text_color (pdf w) = tc /\
  df w = df0 /\
  files w = fs.

(** From every store in [P] the computation returns, in a store in [Q]. *)
Definition leads (P : World Label Row -> Prop) (m : M Label Row unit)
    (Q : World Label Row -> Prop) : Prop :=
  forall w, P w -> exists w', m w = (Ok tt, w') /\ Q w'.

End Stages.

(** ** The host: fonts, files, the command line *)

(** What the program prints is not part of the state.  Reading a file
    can fail; making the output directory and writing the document are
    taken to succeed, as [output] is. *)

(** An ASCII literal as a [str]. *)
Definition ascii_text (s : String.string) : text :=
  map Ascii.N_of_ascii (String.list_ascii_of_string s).

(** The ASCII literals of the program. *)
Module Lit.
Import String.
#[local] Open Scope string_scope.
Definition helvetica_name : text := ascii_text "Helvetica".
Definition arial : text := ascii_text "Arial".
Definition arial_ttf : text := ascii_text "arial.ttf".
Definition arialbd_ttf : text := ascii_text "arialbd.ttf".
Definition dejavusans : text := ascii_text "DejaVuSans".
Definition dejavusans_ttf : text := ascii_text "DejaVuSans.ttf".
Definition dejavusans_bold_ttf : text := ascii_text "DejaVuSans-Bold.ttf".
Definition calibri : text := ascii_text "Calibri".
Definition calibri_ttf : text := ascii_text "calibri.ttf".
Definition calibrib_ttf : text := ascii_text "calibrib.ttf".
Definition windows : text := ascii_text "Windows".
Definition darwin : text := ascii_text "Darwin".
Definition c_windows : text := ascii_text "C:\Windows".
Definition fonts_part : text := ascii_text "Fonts".
Definition mac_fonts : text := ascii_text "/System/Library/Fonts/Supplemental".
Definition linux_fonts : text := ascii_text "/usr/share/fonts/truetype/dejavu".
Definition output_part : text := ascii_text "output".
Definition output_prefix : text := ascii_text "output_".
Definition pdf_suffix : text := ascii_text ".pdf".
Definition startfile : text := ascii_text "startfile".
Definition open_cmd : text := ascii_text "open".
Definition xdg_open : text := ascii_text "xdg-open".
End Lit.

Definition text_eqb (a b : text) : bool :=
  if list_eq_dec N.eq_dec a b then true else false.

(** A [Path]: its parts, a part being joined by [/]. *)
Definition Path := list text.

Definition path_of (s : text) : Path := [s].

Definition path_div (p : Path) (name : text) : Path := p ++ [name].

(** What the program asks of the machine it runs on: [platform.system()],
    the [WINDIR] variable, [Path.exists], whether [add_font] accepts a
    file, the directory of the script, [str] of a path, and the time of
    the k-th clock read in the format of file names. *)
Record Host := mkHost {
  system : text;
  windir : option text;
  exists_path : Path -> bool;
  loads_font : Path -> bool;
  script_dir : Path;
  str_path : Path -> text;
  strftime_stamp : nat -> text }.

Definition helvetica : text := Lit.helvetica_name.

(** [font_options]: family, regular file, bold file. *)
Definition font_options : list (text * text * text) :=
  [(Lit.arial, Lit.arial_ttf, Lit.arialbd_ttf);
   (Lit.dejavusans, Lit.dejavusans_ttf,
    Lit.dejavusans_bold_ttf);
   (Lit.calibri, Lit.calibri_ttf, Lit.calibrib_ttf)].

Section Fonts.

Variable h : Host.

(** [_get_fonts_dir] *)
Definition get_fonts_dir : Path :=
  if text_eqb (system h) (Lit.windows) then
    path_div (path_of (match windir h with
                       | Some d => d
                       | None => Lit.c_windows
                       end))
             (Lit.fonts_part)
  else if text_eqb (system h) (Lit.darwin) then
    path_of (Lit.mac_fonts)
  else path_of (Lit.linux_fonts).

(** The loop of [_setup_font] over the options left, [fonts] being the
    faces registered so far: an option is taken when its regular file
    exists and registers and its bold file, if there is one, registers
    too; a failed registration moves on to the next option. *)
Fixpoint try_fonts (fonts_dir : Path) (options : list (text * text * text))
    (fonts : list (text * FontStyle)) : text * list (text * FontStyle) :=
  match options with
  | [] => (helvetica, fonts)
  | (font_name, regular, bold) :: rest =>
      let regular_path := path_div fonts_dir regular in
      let bold_path := path_div fonts_dir bold in
      if exists_path h regular_path then
        if loads_font h regular_path then
          let fonts1 := fonts ++ [(font_name, Regular)] in
          if exists_path h bold_path then
            if loads_font h bold_path
            then (font_name, fonts1 ++ [(font_name, Bold)])
            else try_fonts fonts_dir rest fonts1
          else (font_name, fonts1)
        else try_fonts fonts_dir rest fonts
      else try_fonts fonts_dir rest fonts
  end.

(** [_setup_font]: the family settled on and the faces registered. *)
Definition setup_font : text * list (text * FontStyle) :=
  try_fonts get_fonts_dir font_options [].

(** An option [_setup_font] can take. *)
Definition usable (fonts_dir : Path) (option : text * text * text) : bool :=
  let '(_, regular, bold) := option in
  exists_path h (path_div fonts_dir regular)
  && loads_font h (path_div fonts_dir regular)
  && (negb (exists_path h (path_div fonts_dir bold))
      || loads_font h (path_div fonts_dir bold)).

(** The environment of a generator built on this host: the geometry of
    [e] with the family [_setup_font] settles on. *)
Definition host_env (e : Env) : Env :=
  mkEnv (page_w e) (page_h e) (l_margin e) (t_margin e) (r_margin e)
        (fst setup_font) (strftime_now e) (recursion_limit e).

(** [OUTPUT_DIR] *)
Definition output_dir : Path := path_div (script_dir h) (Lit.output_part).

End Fonts.

(** The exceptions [main] catches. *)
Inductive CliError :=
| FileNotFoundError (filepath : Path)
| ValueError
| EngineError (e : Exn)
| OtherError.

Inductive Outcome (A : Type) :=
| Done (a : A)
| Failed (e : CliError).

Arguments Failed {A} e.

(** The parsed arguments. *)
Record Args := mkArgs {
  csv : Path;
  template : Path;
  output_arg : option Path;
  no_open : bool }.

Section CommandLine.

Variable Label : Type.
Variable Row : Type.
Variable str_label : Label -> text.
Variable str_item : Row -> Label -> text.
Variable h : Host.

(** [pd.read_csv] and reading a text file, as the host answers them. *)
Variable read_csv : Path -> Outcome (DataFrame Label Row).
Variable read_text : Path -> Outcome text.

(** The process: the store of the generator, the directories made and
    the viewers launched, as command and file. *)
Record Process := mkProcess {
  store : World Label Row;
  dirs_made : list Path;
  launched : list (text * text) }.

(** [df.empty] *)
Definition empty (d : DataFrame Label Row) : bool :=
  (length (columns d) =? 0) || (length (rows d) =? 0).

Definition validate_csv (filepath : Path) : Outcome (DataFrame Label Row) :=
  if negb (exists_path h filepath) then Failed (FileNotFoundError filepath)
  else
    match read_csv filepath with
    | Failed e => Failed e
    | Done d => if empty d then Failed ValueError else Done d
    end.

Definition validate_template (filepath : Path) : Outcome text :=
  if negb (exists_path h filepath) then Failed (FileNotFoundError filepath)
  else read_text filepath.

Definition ensure_output_dir (p : Process) : Process :=
  mkProcess (store p) (dirs_made p ++ [output_dir h]) (launched p).

(** [generate_output_filename]: one clock read. *)
Definition generate_output_filename (p : Process) : Path * Process :=
  let w := store p in
  (path_div (output_dir h)
            (Lit.output_prefix ++ strftime_stamp h (clock w)
             ++ Lit.pdf_suffix),
   mkProcess (mkWorld (pdf w) (df w) (S (clock w)) (files w))
             (dirs_made p) (launched p)).

(** The command [open_file] hands the file to. *)
Definition opener : text :=
  if text_eqb (system h) (Lit.windows) then Lit.startfile
  else if text_eqb (system h) (Lit.darwin) then Lit.open_cmd
  else Lit.xdg_open.

(** [open_file]: a failure of the command is caught. *)
Definition open_file (filepath : text) (p : Process) : Process :=
  mkProcess (store p) (dirs_made p) (launched p ++ [(opener, filepath)]).

(** The template read by step 2 of [main], when the file exists. *)
Definition read_template (a : Args) : Outcome (option text) :=
  if exists_path h (template a) then
    match validate_template (template a) with
    | Done t => Done (Some t)
    | Failed e => Failed e
    end
  else Done None.

(** [if template_content:] *)
Definition truthy (t : option text) : bool :=
  match t with
  | Some (_ :: _) => true
  | _ => false
  end.

(** The text of a template that has been read. *)
Definition template_text (t : option text) : text :=
  match t with
  | Some c => c
  | None => []
  end.

(** [main]: the exit status and the process it leaves. *)
Definition main (e : Env) (a : Args) (p : Process) : nat * Process :=
  match validate_csv (csv a) with
  | Failed _ => (1, p)
  | Done d =>
      match read_template a with
      | Failed _ => (1, p)
      | Done template_content =>
          let p1 := ensure_output_dir p in
          let '(output_path, p2) :=
            match output_arg a with
            | Some o => (o, p1)
            | None => generate_output_filename p1
            end in
          let w := store p2 in
          let w0 := mkWorld (pdf w) d (clock w) (files w) in
          let run :=
            if truthy template_content
            then generate_pdf_from_template str_label str_item
                   (host_env h e) (template_text template_content)
                   (str_path h output_path)
            else generate_pdf_from_data str_label str_item
                   (host_env h e) (str_path h output_path) in
          match run w0 with
          | (Raise _, w') => (1, mkProcess w' (dirs_made p2) (launched p2))
          | (Ok result, w') =>
              let p3 := mkProcess w' (dirs_made p2) (launched p2) in
              (0, if no_open a then p3 else open_file result p3)
          end
      end
  end.

End CommandLine.

(** ** A sample host *)

(** A Linux machine holding one CSV file, which reads as the shop
    frame, and the DejaVu fonts. *)
Definition shop_csv : Path := [text_of [115; 104; 111; 112; 46; 99; 115; 118]].

Definition path_eqb (p q : Path) : bool :=
  if list_eq_dec (list_eq_dec N.eq_dec) p q then true else false.

(** Two templates: one that reads, one that is not UTF-8. *)
Definition shop_html : Path :=
  [text_of [115; 104; 111; 112; 46; 104; 116; 109; 108]].

Definition torn_html : Path :=
  [text_of [116; 111; 114; 110; 46; 104; 116; 109; 108]].

Definition read_page (p : Path) : Outcome text :=
  if path_eqb p torn_html then Failed ValueError
  else Done (text_of [60; 112; 62]).

Definition linux_box : Host :=
  mkHost (text_of [76; 105; 110; 117; 120]) None
         (fun p => path_eqb p shop_csv
                   || path_eqb p shop_html || path_eqb p torn_html
                   || path_eqb p [Lit.linux_fonts; Lit.dejavusans_ttf]
                   || path_eqb p [Lit.linux_fonts; Lit.dejavusans_bold_ttf])
         (fun _ => true)
         [text_of [97; 112; 112]]
         (fun p => concat (map (fun part => 47%N :: part) p))
         (fun k => text_of [50; 48; 50; 54; 49; 49; 48; 52; 95] ++ str_nat k).

Definition torn_args : Args := mkArgs shop_csv torn_html None false.


Definition missing_args : Args :=
  mkArgs [text_of [110; 111; 46; 99; 115; 118]]
         [text_of [116; 46; 104; 116; 109; 108]] None false.

Definition read_shop (p : Path) : Outcome (DataFrame text (list text)) :=
  Done shop.

Definition idle : Process text (list text) :=
  mkProcess (new_world a4 no_columns 0 []) [] [].

(** ** Running the surface *)

Unset Implicit Arguments.

Section Surface.

Variable Label : Type.
Variable Row : Type.
Variable env : Env.

Local Abbreviation W := (World Label Row).
Local Abbreviation cellD := (@cell_at Label Row env).

Hypothesis sane : sane_geometry env = true.

Lemma sane_depth : exists d, recursion_limit env = S d.
Proof.
  unfold sane_geometry in sane.
  repeat (apply andb_prop in sane; destruct sane as [sane ?]).
  apply Nat.leb_le in sane.
  destruct (recursion_limit env) as [|d]; [lia | now exists d].
Qed.

Lemma title_fits :
  (page_break_trigger env <? t_margin env + 10)%float = false.
Proof.
  unfold sane_geometry in sane.
  repeat (apply andb_prop in sane; destruct sane as [sane ?]).
  now apply negb_true_iff.
Qed.

Lemma band_fits :
  (page_break_trigger env <? t_margin env + 10 + 5 + 10)%float = false.
Proof.
  unfold sane_geometry in sane.
  repeat (apply andb_prop in sane; destruct sane as [sane ?]).
  now apply negb_true_iff.
Qed.

Lemma row_fits :
  (page_break_trigger env <? t_margin env + 10 + 5 + 8)%float = false.
Proof.
  unfold sane_geometry in sane.
  repeat (apply andb_prop in sane; destruct sane as [sane ?]).
  now apply negb_true_iff.
Qed.

(** A cell that fits is drawn where the cursor stands. *)
Lemma cell_fits d w h t bd al fl nx ny (wd : W) :
  will_page_break env h (pdf wd) = false ->
  cellD d w h t bd al fl nx ny wd
  = (Ok tt, mkWorld (render_cell env w h t bd al fl nx ny (pdf wd))
                    (df wd) (clock wd) (files wd)).
Proof.
  intros Hfit. destruct d; cbn; unfold bind, gets; rewrite Hfit; reflexivity.
Qed.

Lemma header_run d (wd : W) :
  y (pdf wd) = t_margin env ->
  header_with env (cellD d) wd
  = (Ok tt, mkWorld (header_state env (pdf wd)) (df wd) (clock wd) (files wd)).
Proof.
  intros Hy. unfold header_with, bind at 1 2.
  cbn [set_font set_text_color modify].
  unfold bind at 1. rewrite cell_fits.
  - reflexivity.
  - unfold will_page_break. cbn. rewrite Hy, title_fits. reflexivity.
Qed.

Lemma footer_run d (wd : W) :
  in_footer (pdf wd) = true ->
  footer_with env (cellD d) wd
  = (Ok tt, mkWorld (footer_state env (clock wd) (pdf wd)) (df wd)
                    (S (clock wd)) (files wd)).
Proof.
  intros Hin. unfold footer_with, bind at 1 2 3 4 5.
  cbn [set_y set_font set_text_color modify now_text gets].
  rewrite cell_fits.
  - reflexivity.
  - unfold will_page_break. cbn. rewrite Hin. apply andb_false_r.
Qed.

Lemma restore_style_y f fc tc s : y (restore_style f fc tc s) = y s.
Proof. destruct f; reflexivity. Qed.

(** An automatic page break closes the page with its footer and opens
    the next one with its title. *)
Lemma break_run d (wd : W) :
  0 < page (pdf wd) ->
  perform_page_break env (footer_with env (cellD d)) (header_with env (cellD d)) wd
  = (Ok tt, mkWorld (break_state env (clock wd) (pdf wd)) (df wd)
                    (S (clock wd)) (files wd)).
Proof.
  intros Hp. apply Nat.ltb_lt in Hp.
  unfold perform_page_break, add_page_with, bind at 1 2 3.
  cbn [gets]. rewrite Hp.
  unfold bind at 1 2 3. cbn [modify].
  rewrite footer_run by reflexivity.
  unfold bind at 1 2 3. cbn [modify pdf df clock files].
  rewrite header_run by (cbn [pdf]; now rewrite restore_style_y).
  reflexivity.
Qed.

Lemma cell_breaks d w h t bd al fl nx ny (wd : W) :
  will_page_break env h (pdf wd) = true ->
  0 < page (pdf wd) ->
  cellD (S d) w h t bd al fl nx ny wd
  = (Ok tt, mkWorld (render_cell env w h t bd al fl nx ny
                       (break_state env (clock wd) (pdf wd)))
                    (df wd) (S (clock wd)) (files wd)).
Proof.
  intros Hbrk Hp. cbn [cell_at]. unfold bind at 1 2. cbn [gets].
  rewrite Hbrk, break_run by assumption. reflexivity.
Qed.

(** The first [add_page] of a document draws no footer. *)
Lemma first_page_run d df0 k fs :
  add_page_with env (footer_with env (cellD d)) (header_with env (cellD d))
                (mkWorld (new_generator env) df0 k fs)
  = (Ok tt, mkWorld (first_page env) df0 k fs).
Proof.
  unfold add_page_with, bind at 1 2 3 4. cbn [gets pdf new_generator page].
  cbn [Nat.ltb Nat.leb ret modify pdf df clock files].
  unfold bind at 1 2 3. cbn [modify pdf df clock files].
  rewrite header_run by reflexivity.
  reflexivity.
Qed.

Lemma add_page_first df0 k fs :
  add_page env (mkWorld (Label := Label) (Row := Row) (new_generator env) df0 k fs)
  = (Ok tt, mkWorld (first_page env) df0 k fs).
Proof. apply first_page_run. Qed.

(** *** What a page break leaves *)

Lemma break_page k s : page (break_state env k s) = S (page s).
Proof. unfold break_state, open_page, restore_style. destruct (font s); reflexivity. Qed.

Lemma break_y k s : y (break_state env k s) = (t_margin env + 10 + 5)%float.
Proof. unfold break_state, open_page, restore_style. destruct (font s); reflexivity. Qed.

Lemma break_in_footer k s : in_footer (break_state env k s) = false.
Proof. unfold break_state, open_page, restore_style. destruct (font s); reflexivity. Qed.

Lemma break_content k s :
  content (break_state env k s)
  = content s ++ [footer_cell env k (with_in_footer true s);
                  title_cell env
                    (restore_style (font s) (fill_color s) (text_color s)
                       (beginpage env
                          (with_in_footer false
                             (footer_state env k (with_in_footer true s)))))].
Proof.
  unfold break_state, open_page, restore_style.
  destruct (font s); cbn; rewrite <- app_assoc; reflexivity.
Qed.

Lemma title_cell_page s : on_page (title_cell env s) = page s.
Proof. reflexivity. Qed.

(** *** One cell, with or without a page break *)

Lemma cell_run w h t bd al fl nx ny (wd : W) :
  0 < page (pdf wd) ->
  exists s0 k' furn,
    cell env w h t bd al fl nx ny wd
    = (Ok tt, mkWorld (render_cell env w h t bd al fl nx ny s0)
                      (df wd) k' (files wd)) /\
    content s0 = content (pdf wd) ++ furn /\
    in_footer s0 = in_footer (pdf wd) /\
    page_turn (pdf wd) (will_page_break env h (pdf wd)) furn (page s0) /\
    y s0 = (if will_page_break env h (pdf wd)
            then (t_margin env + 10 + 5)%float else y (pdf wd)).
Proof.
  intros Hp. destruct sane_depth as [d Hd]. unfold cell. rewrite Hd.
  destruct (will_page_break env h (pdf wd)) eqn:Hbrk.
  - exists (break_state env (clock wd) (pdf wd)), (S (clock wd)).
    eexists. rewrite cell_breaks by assumption.
    split; [reflexivity|]. split; [apply break_content|].
    split.
    { rewrite break_in_footer. unfold will_page_break in Hbrk.
      apply andb_prop in Hbrk. destruct Hbrk as [_ Hf].
      now destruct (in_footer (pdf wd)). }
    split; [|apply break_y].
    unfold page_turn. do 2 eexists. split; [reflexivity|].
    rewrite break_page. unfold furniture. repeat split; try reflexivity.
    rewrite title_cell_page. unfold restore_style.
    now destruct (font (pdf wd)).
  - exists (pdf wd), (clock wd), []. rewrite cell_fits by assumption.
    rewrite app_nil_r. repeat split; reflexivity.
Qed.

Lemma page_turn_furniture s brk furn p :
  page_turn s brk furn p -> Forall furniture furn.
Proof.
  destruct brk; cbn.
  - intros (f & t & -> & Hf & _ & Ht & _).
    constructor; [exact Hf | constructor; [exact Ht | constructor]].
  - intros [-> _]. constructor.
Qed.

Lemma page_turn_page s brk furn p : page_turn s brk furn p -> page s <= p.
Proof.
  destruct brk; cbn.
  - intros (f & t & _ & _ & _ & _ & _ & _ & ->). lia.
  - intros [_ ->]. lia.
Qed.

(** *** A run of cells on one line *)

Lemma cell_env_fits w h t bd al fl nx ny (wd : W) :
  will_page_break env h (pdf wd) = false ->
  cell env w h t bd al fl nx ny wd
  = (Ok tt, mkWorld (render_cell env w h t bd al fl nx ny (pdf wd))
                    (df wd) (clock wd) (files wd)).
Proof. apply cell_fits. Qed.

Lemma cells_run (A : Type) (f : A -> text) cols cw h bd al fl (wd : W) :
  will_page_break env h (pdf wd) = false ->
  exists s' cells,
    for_each cols (fun col => cell env cw h (f col) bd al fl XRight YTop) wd
    = (Ok tt, mkWorld s' (df wd) (clock wd) (files wd)) /\
    content s' = content (pdf wd) ++ cells /\
    page s' = page (pdf wd) /\ y s' = y (pdf wd) /\
    in_footer s' = in_footer (pdf wd) /\
    Forall2 (fun col c =>
               cell_like (page (pdf wd)) (y (pdf wd)) h bd al fl (f col) c)
            cols cells.
Proof.
  revert wd. induction cols as [|col cols IH]; intros wd Hfit.
  - exists (pdf wd), []. cbn. rewrite app_nil_r.
    destruct wd; repeat split; constructor.
  - cbn [for_each]. unfold bind. rewrite cell_env_fits by assumption.
    set (wd1 := mkWorld _ _ _ _).
    destruct (IH wd1) as (s' & cells & Hrun & Hc & Hp & Hy & Hf & Hall).
    { exact Hfit. }
    rewrite Hrun. subst wd1. cbn in *.
    exists s'. eexists. split; [reflexivity|].
    split; [rewrite Hc, <- app_assoc; reflexivity|].
    repeat split; try assumption.
    constructor; [|exact Hall]. repeat split.
Qed.

(** *** A band: a leading cell, a cell per column, a line feed *)

Lemma band_run (A : Type) (f : A -> text) cols w cw h t al al' fl (wd : W) :
  (page_break_trigger env <? t_margin env + 10 + 5 + h)%float = false ->
  in_footer (pdf wd) = false ->
  0 < page (pdf wd) ->
  exists wd' furn lead rest p yy,
    bind (cell env w h t true al fl XRight YTop)
         (fun _ =>
            bind (for_each cols (fun col =>
                    cell env cw h (f col) true al' fl XRight YTop))
                 (fun _ => ln env None)) wd
    = (Ok tt, wd') /\
    df wd' = df wd /\
    in_footer (pdf wd') = false /\
    page (pdf wd') = p /\
    content (pdf wd') = content (pdf wd) ++ furn ++ lead :: rest /\
    page_turn (pdf wd) (will_page_break env h (pdf wd)) furn p /\
    cell_like p yy h true al fl t lead /\
    Forall2 (fun col c => cell_like p yy h true al' fl (f col) c) cols rest.
Proof.
  intros Hroom Hin Hp.
  destruct (cell_run w h t true al fl XRight YTop wd Hp)
    as (s0 & k' & furn & Hrun & Hc0 & Hin0 & Hturn & Hy0).
  unfold bind at 1. rewrite Hrun.
  set (wd1 := mkWorld _ _ _ _).
  assert (Hfit : will_page_break env h (pdf wd1) = false).
  { subst wd1. unfold will_page_break in *. cbn. rewrite Hy0, Hin0.
    destruct ((page_break_trigger env <? y (pdf wd) + h)%float
              && negb (in_footer (pdf wd))) eqn:Hb.
    - rewrite Hroom. reflexivity.
    - exact Hb. }
  destruct (cells_run A f cols cw h true al' fl wd1 Hfit)
    as (s' & cells & Hrun' & Hc & Hpg & Hy & Hf & Hall).
  unfold bind at 1. rewrite Hrun'. subst wd1. cbn in *.
  eexists. exists furn. do 2 eexists. exists (page s0), (y s0).
  split; [reflexivity|]. cbn.
  split; [reflexivity|]. split; [congruence|]. split; [assumption|].
  split. { rewrite Hc, Hc0, <- !app_assoc. reflexivity. }
  split; [assumption|]. split; [|exact Hall].
  repeat split.
Qed.

Variable str_label : Label -> text.
Variable str_item : Row -> Label -> text.

Lemma data_row_run cols cw i row (wd : W) :
  in_footer (pdf wd) = false ->
  0 < page (pdf wd) ->
  exists wd' furn band p,
    data_row str_item env cols cw i row wd = (Ok tt, wd') /\
    df wd' = df wd /\
    in_footer (pdf wd') = false /\
    page (pdf wd') = p /\
    content (pdf wd') = content (pdf wd) ++ furn ++ band /\
    page_turn (pdf wd) (will_page_break env 8 (pdf wd)) furn p /\
    row_band str_item cols i row p band.
Proof.
  intros Hin Hp. unfold data_row.
  assert (Hfill : exists wd1,
             (if i mod 2 =? 0
              then bind (set_fill_color 245 245 245) (fun _ => ret true)
              else ret (Label := Label) (Row := Row) false) wd
             = (Ok (i mod 2 =? 0), wd1) /\
             df wd1 = df wd /\ in_footer (pdf wd1) = false /\
             page (pdf wd1) = page (pdf wd) /\ y (pdf wd1) = y (pdf wd) /\
             content (pdf wd1) = content (pdf wd)).
  { destruct (i mod 2 =? 0); eexists; (split; [reflexivity|]);
      cbn; repeat split; assumption. }
  destruct Hfill as (wd1 & Hrun1 & Hdf1 & Hin1 & Hp1 & Hy1 & Hc1).
  unfold bind at 1. rewrite Hrun1.
  destruct (band_run Label (fun col => slice_to 20 (str_item row col)) cols
              (float_of_nat num_col_width) cw 8%float (str_nat (i + 1))
              AlignC AlignL (i mod 2 =? 0) wd1 row_fits Hin1)
    as (wd' & furn & lead & rest & p & yy & Hrun & Hdf & Hin' & Hpg & Hc
        & Hturn & Hlead & Hrest).
  { rewrite Hp1. exact Hp. }
  rewrite Hrun. exists wd', furn, (lead :: rest), p.
  split; [reflexivity|]. split; [congruence|]. split; [assumption|].
  split; [assumption|]. split; [rewrite Hc, Hc1; reflexivity|].
  split.
  { unfold will_page_break in *. rewrite Hy1, Hin1 in Hturn.
    rewrite Hin. unfold page_turn in *. rewrite Hp1 in Hturn. exact Hturn. }
  exists lead, rest, yy. split; [reflexivity | split; assumption].
Qed.

Lemma rows_run cols cw rs : forall i (wd : W),
  in_footer (pdf wd) = false ->
  0 < page (pdf wd) ->
  exists wd' body,
    for_enumerate i rs (data_row str_item env cols cw) wd = (Ok tt, wd') /\
    df wd' = df wd /\
    in_footer (pdf wd') = false /\
    page (pdf wd) <= page (pdf wd') /\
    content (pdf wd') = content (pdf wd) ++ body /\
    rows_log str_item cols i rs body.
Proof.
  induction rs as [|r rs IH]; intros i wd Hin Hp.
  - exists wd, []. cbn. rewrite app_nil_r. repeat split; try assumption.
    + lia.
    + constructor.
  - cbn [for_enumerate].
    destruct (data_row_run cols cw i r wd Hin Hp)
      as (wd1 & furn & band & p & Hrun & Hdf & Hin1 & Hpg & Hc & Hturn & Hband).
    unfold bind at 1. rewrite Hrun.
    pose proof (page_turn_page _ _ _ _ Hturn) as Hle.
    destruct (IH (S i) wd1 Hin1) as (wd' & body & Hrun' & Hdf' & Hin' & Hle' & Hc' & Hlog).
    { rewrite Hpg. lia. }
    rewrite Hrun'. exists wd', (furn ++ band ++ body).
    split; [reflexivity|]. split; [congruence|]. split; [assumption|].
    split; [lia|].
    split. { rewrite Hc', Hc, <- !app_assoc. reflexivity. }
    econstructor; eauto using page_turn_furniture.
Qed.

Lemma table_header_run cols cw (wd : W) :
  y (pdf wd) = (t_margin env + 10 + 5)%float ->
  in_footer (pdf wd) = false ->
  0 < page (pdf wd) ->
  exists wd' band,
    table_header str_label env cols cw wd = (Ok tt, wd') /\
    df wd' = df wd /\
    in_footer (pdf wd') = false /\
    page (pdf wd') = page (pdf wd) /\
    content (pdf wd') = content (pdf wd) ++ band /\
    header_band str_label cols (page (pdf wd)) band.
Proof.
  intros Hy Hin Hp. unfold table_header, bind at 1 2 3.
  cbn [set_fill_color set_text_color set_font modify].
  set (wd1 := mkWorld _ _ _ _).
  destruct (band_run Label (fun col => slice_to 15 (str_label col)) cols
              (float_of_nat num_col_width) cw 10%float numero_sign
              AlignC AlignC true wd1 band_fits Hin Hp)
    as (wd' & furn & lead & rest & p & yy & Hrun & Hdf & Hin' & Hpg & Hc
        & Hturn & Hlead & Hrest).
  rewrite Hrun.
  assert (Hfit : will_page_break env 10 (pdf wd1) = false).
  { subst wd1. unfold will_page_break. cbn. rewrite Hy, band_fits.
    reflexivity. }
  rewrite Hfit in Hturn. destruct Hturn as [-> ->].
  exists wd', (lead :: rest). subst wd1. cbn in *.
  repeat split; try assumption.
  exists lead, rest, yy. split; [reflexivity | split; assumption].
Qed.

Lemma total_line_run (wd : W) :
  in_footer (pdf wd) = false ->
  0 < page (pdf wd) ->
  exists wd' furn tot,
    total_line env wd = (Ok tt, wd') /\
    df wd' = df wd /\
    content (pdf wd') = content (pdf wd) ++ furn ++ [tot] /\
    Forall furniture furn /\
    border tot = false /\ align tot = AlignL /\
    txt tot = total_prefix ++ str_nat (length (rows (df wd))).
Proof.
  intros Hin Hp. unfold total_line, bind at 1 2 3 4.
  cbn [ln set_text_color set_font modify ask pdf df clock files].
  set (wd1 := mkWorld _ _ _ _).
  destruct (cell_run 0%float 10%float
              (total_prefix ++ str_nat (length (rows (df wd))))
              false AlignL false XLMargin YNext wd1 Hp)
    as (s0 & k' & furn & Hrun & Hc0 & Hin0 & Hturn & Hy0).
  rewrite Hrun. eexists. exists furn. eexists.
  split; [reflexivity|]. cbn. split; [reflexivity|].
  split. { rewrite Hc0, <- app_assoc. reflexivity. }
  split; [eauto using page_turn_furniture|]. repeat split.
Qed.

(** *** The whole table *)

Lemma table_run df0 k fs :
  columns df0 <> [] ->
  exists wd' t hband body furn tot,
    add_products_table str_label str_item env
      (mkWorld (new_generator env) df0 k fs) = (Ok tt, wd') /\
    df wd' = df0 /\
    content (pdf wd') = t :: hband ++ body ++ furn ++ [tot] /\
    (furniture t /\ txt t = page_title /\ on_page t = 1) /\
    header_band str_label (columns df0) 1 hband /\
    rows_log str_item (columns df0) 0 (rows df0) body /\
    Forall furniture furn /\
    border tot = false /\ align tot = AlignL /\
    txt tot = total_prefix ++ str_nat (length (rows df0)).
Proof.
  intros Hcols. unfold add_products_table.
  unfold bind at 1. rewrite add_page_first.
  unfold bind at 1 2. cbn [ask df]. unfold truediv.
  destruct (columns df0) as [|c cols] eqn:Hcs; [congruence|].
  cbn [length ret].
  set (cw := float_quot _ _).
  destruct (table_header_run (c :: cols) cw
              (mkWorld (first_page env) df0 k fs))
    as (wd1 & hband & Hrun1 & Hdf1 & Hin1 & Hp1 & Hc1 & Hband);
    [reflexivity | reflexivity | cbn; lia |].
  unfold bind at 1. rewrite Hrun1.
  unfold bind at 1 2 3. cbn [set_text_color set_font modify ask df].
  set (wd2 := mkWorld _ _ _ _).
  destruct (rows_run (c :: cols) cw (rows (df wd1)) 0 wd2)
    as (wd3 & body & Hrun3 & Hdf3 & Hin3 & Hle3 & Hc3 & Hlog);
    [subst wd2; cbn; assumption | subst wd2; cbn in *; lia |].
  unfold bind at 1. rewrite Hrun3.
  destruct (total_line_run wd3 Hin3)
    as (wd4 & furn & tot & Hrun4 & Hdf4 & Hc4 & Hfurn & Hb & Ha & Ht).
  { subst wd2; cbn in *; lia. }
  rewrite Hrun4. subst wd2. cbn in *.
  exists wd4. eexists. exists hband, body, furn, tot.
  split; [reflexivity|]. split; [congruence|].
  split.
  { rewrite Hc4, Hc3, Hc1, <- !app_assoc. reflexivity. }
  split; [unfold furniture; repeat split|].
  rewrite Hdf1 in Hlog. rewrite Hdf3, Hdf1 in Ht.
  repeat split; assumption.
Qed.

End Surface.

(** ** Reading the drawn table *)

Section Reading.

Variable Label : Type.
Variable Row : Type.
Variable str_label : Label -> text.
Variable str_item : Row -> Label -> text.

Lemma filter_none (A : Type) (f : A -> bool) l :
  Forall (fun c => f c = false) l -> filter f l = [].
Proof.
  induction 1 as [|c l Hc _ IH]; [reflexivity|]. cbn. now rewrite Hc.
Qed.

Lemma filter_all (A : Type) (f : A -> bool) l :
  Forall (fun c => f c = true) l -> filter f l = l.
Proof.
  induction 1 as [|c l Hc _ IH]; [reflexivity|]. cbn. now rewrite Hc, IH.
Qed.

Lemma furniture_plain c :
  furniture c ->
  is_data_cell c = false /\ is_header_cell c = false /\ is_total_line c = false.
Proof.
  intros [Hb Ha]. unfold is_data_cell, is_header_cell, is_total_line.
  rewrite Hb, Ha. repeat split; reflexivity.
Qed.

Lemma data_cell_kind p yy al fl t c :
  cell_like p yy 8%float true al fl t c ->
  is_data_cell c = true /\ is_header_cell c = false /\ is_total_line c = false.
Proof.
  intros (_ & _ & Hh & Hb & _). unfold is_data_cell, is_header_cell, is_total_line.
  rewrite Hh, Hb. repeat split; reflexivity.
Qed.

Lemma header_cell_kind p yy al fl t c :
  cell_like p yy 10%float true al fl t c ->
  is_data_cell c = false /\ is_header_cell c = true /\ is_total_line c = false.
Proof.
  intros (_ & _ & Hh & Hb & _). unfold is_data_cell, is_header_cell, is_total_line.
  rewrite Hh, Hb. repeat split; reflexivity.
Qed.

Lemma Forall2_right (A B : Type) (P : B -> Prop) (R : A -> B -> Prop) l l' :
  (forall a b, R a b -> P b) -> Forall2 R l l' -> Forall P l'.
Proof. intros HR. induction 1; constructor; eauto. Qed.

Lemma row_band_cells cols i r p band :
  row_band str_item cols i r p band ->
  length band = S (length cols) /\
  Forall (fun c => is_data_cell c = true /\ is_header_cell c = false /\
                   is_total_line c = false) band.
Proof.
  intros (idx & vals & yy & -> & Hidx & Hvals). split.
  - cbn. f_equal. symmetry. eapply Forall2_length; eassumption.
  - constructor; [eapply data_cell_kind; eassumption|].
    eapply Forall2_right; [|exact Hvals].
    intros a b Hab. cbn beta in Hab. eapply data_cell_kind; exact Hab.
Qed.

Lemma header_band_cells cols p band :
  header_band str_label cols p band ->
  Forall (fun c => is_data_cell c = false /\ is_header_cell c = true /\
                   is_total_line c = false) band.
Proof.
  intros (mark & names & yy & -> & Hm & Hn).
  constructor; [eapply header_cell_kind; eassumption|].
  eapply Forall2_right; [|exact Hn].
  intros a b Hab. cbn beta in Hab. eapply header_cell_kind; exact Hab.
Qed.

Lemma row_cells_here n band rest :
  length band = S n -> row_cells n 0 (band ++ rest) = band.
Proof.
  intros Hlen. unfold row_cells. cbn [Nat.mul skipn].
  rewrite <- Hlen, firstn_app, Nat.sub_diag, firstn_all. cbn.
  apply app_nil_r.
Qed.

Lemma row_cells_next n j band rest :
  length band = S n ->
  row_cells n (S j) (band ++ rest) = row_cells n j rest.
Proof.
  intros Hlen. unfold row_cells. f_equal.
  replace (S j * S n) with (length band + j * S n) by (rewrite Hlen; lia).
  rewrite skipn_app, skipn_all2 by lia.
  cbn [app]. f_equal. lia.
Qed.

(** The data cells of the loop's output are the bands of the rows, one
    after the other. *)
Lemma rows_log_data cols i rs body :
  rows_log str_item cols i rs body ->
  length (data_cells body) = length rs * S (length cols) /\
  filter is_header_cell body = [] /\
  Forall (fun c => is_total_line c = false) body /\
  forall j r, nth_error rs j = Some r ->
    exists p, row_band str_item cols (i + j) r p
                (row_cells (length cols) j (data_cells body)).
Proof.
  induction 1 as [i | i r rs furn p band rest Hfurn Hband _ IH].
  - repeat split; try constructor. intros [|j] r Hj; discriminate.
  - destruct IH as (IHlen & IHhead & IHtot & IHrow).
    destruct (row_band_cells _ _ _ _ _ Hband) as [Hlen Hkinds].
    assert (Hd : data_cells (furn ++ band ++ rest) = band ++ data_cells rest).
    { unfold data_cells. rewrite !filter_app.
      rewrite (filter_none _ _ furn), (filter_all _ _ band); [reflexivity| |].
      - eapply Forall_impl; [|exact Hkinds]. now intros c (? & _).
      - eapply Forall_impl; [|exact Hfurn].
        intros c Hc. now apply furniture_plain. }
    rewrite Hd. repeat split.
    + rewrite length_app, IHlen, Hlen. cbn. lia.
    + rewrite !filter_app, IHhead, (filter_none _ _ furn), (filter_none _ _ band).
      * reflexivity.
      * eapply Forall_impl; [|exact Hkinds]. now intros c (_ & ? & _).
      * eapply Forall_impl; [|exact Hfurn].
        intros c Hc. now apply furniture_plain.
    + apply Forall_app. split; [|apply Forall_app; split; [|exact IHtot]].
      * eapply Forall_impl; [|exact Hfurn].
        intros c Hc. now apply furniture_plain.
      * eapply Forall_impl; [|exact Hkinds]. now intros c (_ & _ & ?).
    + intros [|j] r' Hj.
      * cbn in Hj. injection Hj as <-. exists p.
        rewrite Nat.add_0_r, row_cells_here by exact Hlen. exact Hband.
      * cbn in Hj. destruct (IHrow j r' Hj) as [p' Hp'].
        exists p'. rewrite row_cells_next by exact Hlen.
        now rewrite Nat.add_succ_r.
Qed.

End Reading.

(** ** The layout of a table *)

Section Layout.

Variable Label : Type.
Variable Row : Type.
Variable str_label : Label -> text.
Variable str_item : Row -> Label -> text.
Variable env : Env.

Hypothesis sane : sane_geometry env = true.

Local Abbreviation table := (add_products_table str_label str_item env).
Local Abbreviation cells_from := (table_cells str_label str_item env).

(** What the drawn cells of a table with at least one column are: the
    title first, the header band once, the bands of the rows in order,
    the closing line last. *)
Lemma table_layout (df0 : DataFrame Label Row) k fs :
  columns df0 <> [] ->
  fst (table (new_world env df0 k fs)) = Ok tt /\
  (exists t rest, cells_from (new_world env df0 k fs) = t :: rest /\
     furniture t /\ txt t = page_title /\ on_page t = 1) /\
  header_band str_label (columns df0) 1
    (filter is_header_cell (cells_from (new_world env df0 k fs))) /\
  length (data_cells (cells_from (new_world env df0 k fs)))
  = length (rows df0) * S (length (columns df0)) /\
  (forall j r, nth_error (rows df0) j = Some r ->
     exists p, row_band str_item (columns df0) j r p
                 (row_cells (length (columns df0)) j
                    (data_cells (cells_from (new_world env df0 k fs))))) /\
  (exists pre tot, cells_from (new_world env df0 k fs) = pre ++ [tot] /\
     Forall (fun c => is_total_line c = false) pre /\
     is_total_line tot = true /\
     txt tot = total_prefix ++ str_nat (length (rows df0))).
Proof.
  intros Hcols.
  destruct (table_run Label Row env sane str_label str_item df0 k fs Hcols)
    as (wd' & t & hband & body & furn & tot & Hrun & Hdf & Hc & (Hft & Htt & Htp)
        & Hhead & Hlog & Hfurn & Hb & Ha & Ht).
  unfold table_cells, new_world. rewrite Hrun. cbn [fst snd]. rewrite Hc.
  destruct (rows_log_data _ _ str_item _ _ _ _ Hlog)
    as (Hlen & Hnohead & Hnotot & Hrows).
  pose proof (header_band_cells _ str_label _ _ _ Hhead) as Hkinds.
  destruct (furniture_plain t Hft) as (Htd & Hth & Htl).
  assert (Htot : is_data_cell tot = false /\ is_header_cell tot = false /\
                 is_total_line tot = true).
  { unfold is_data_cell, is_header_cell, is_total_line. rewrite Hb, Ha.
    repeat split; reflexivity. }
  destruct Htot as (Hxd & Hxh & Hxl).
  assert (Hfd : filter is_data_cell furn = []).
  { apply filter_none. eapply Forall_impl; [|exact Hfurn].
    intros c Hc'. now apply furniture_plain. }
  assert (Hfh : filter is_header_cell furn = []).
  { apply filter_none. eapply Forall_impl; [|exact Hfurn].
    intros c Hc'. now apply furniture_plain. }
  assert (Hhd : filter is_data_cell hband = []).
  { apply filter_none. eapply Forall_impl; [|exact Hkinds].
    now intros c (? & _). }
  assert (Hhh : filter is_header_cell hband = hband).
  { apply filter_all. eapply Forall_impl; [|exact Hkinds].
    now intros c (_ & ? & _). }
  assert (Hdata : data_cells (t :: hband ++ body ++ furn ++ [tot])
                  = data_cells body).
  { unfold data_cells in *. cbn [filter]. rewrite Htd, !filter_app, Hhd, Hfd.
    cbn [filter app]. rewrite Hxd. apply app_nil_r. }
  rewrite Hdata.
  split; [reflexivity|].
  split.
  { exists t. eexists. split; [reflexivity|].
    split; [exact Hft | split; assumption]. }
  split.
  { cbn [filter]. rewrite Hth, !filter_app, Hhh, Hnohead, Hfh.
    cbn [filter app]. rewrite Hxh, app_nil_r. exact Hhead. }
  split; [exact Hlen|].
  split; [exact Hrows|].
  exists (t :: hband ++ body ++ furn), tot.
  split. { cbn [app]. rewrite <- !app_assoc. reflexivity. }
  split; [|split; assumption].
  constructor; [exact Htl|].
  apply Forall_app. split.
  { eapply Forall_impl; [|exact Hkinds]. now intros c (_ & _ & ?). }
  apply Forall_app. split; [exact Hnotot|].
  eapply Forall_impl; [|exact Hfurn]. intros c Hc'. now apply furniture_plain.
Qed.

End Layout.

(** ** Texts of the index column *)

Lemma uint_text_inj u : forall u', uint_text u = uint_text u' -> u = u'.
Proof.
  induction u as [|u IH|u IH|u IH|u IH|u IH|u IH|u IH|u IH|u IH|u IH];
    intros [|u'|u'|u'|u'|u'|u'|u'|u'|u'|u'] H; cbn in H;
    try discriminate; try reflexivity;
    injection H as H; f_equal; now apply IH.
Qed.

Lemma str_nat_inj n m : str_nat n = str_nat m -> n = m.
Proof.
  intros H. apply DecimalNat.Unsigned.to_uint_inj. now apply uint_text_inj.
Qed.

(** ** Properties of the rendered table *)

Section Claims.

Variable Label : Type.
Variable Row : Type.
Variable str_label : Label -> text.
Variable str_item : Row -> Label -> text.

Local Abbreviation table := (add_products_table str_label str_item).
Local Abbreviation cells_from := (table_cells str_label str_item).

(** The band of a row, read back from the data cells. *)
Lemma row_band_read env (df0 : DataFrame Label Row) k fs i :
  sane_geometry env = true ->
  columns df0 <> [] ->
  i < length (rows df0) ->
  exists r p idx vals yy,
    nth_error (rows df0) i = Some r /\
    row_cells (length (columns df0)) i
      (data_cells (cells_from env (new_world env df0 k fs))) = idx :: vals /\
    cell_like p yy 8%float true AlignC (i mod 2 =? 0) (str_nat (i + 1)) idx /\
    Forall2 (fun col c =>
               cell_like p yy 8%float true AlignL (i mod 2 =? 0)
                         (slice_to 20 (str_item r col)) c)
            (columns df0) vals.
Proof.
  intros Hsane Hcols Hi.
  destruct (table_layout _ _ str_label str_item env Hsane df0 k fs Hcols)
    as (_ & _ & _ & _ & Hrows & _).
  destruct (nth_error (rows df0) i) as [r|] eqn:Hr.
  - destruct (Hrows i r Hr) as (p & idx & vals & yy & Hband & Hidx & Hvals).
    exists r, p, idx, vals, yy.
    split; [reflexivity|]. split; [exact Hband|]. split; assumption.
  - apply nth_error_None in Hr. lia.
Qed.

(** C3: in every table with at least one column, the leading cell of
    the [i]-th data row (counted from 0) carries the text of [i + 1], on
    whatever page the row falls; no other row carries that text. *)
Theorem index_cell_counts_from_one env (df0 : DataFrame Label Row) k fs i :
  sane_geometry env = true ->
  columns df0 <> [] ->
  i < length (rows df0) ->
  fst (table env (new_world env df0 k fs)) = Ok tt /\
  exists idx vals,
    row_cells (length (columns df0)) i
      (data_cells (cells_from env (new_world env df0 k fs))) = idx :: vals /\
    length vals = length (columns df0) /\
    txt idx = str_nat (i + 1) /\
    forall j, str_nat (j + 1) = str_nat (i + 1) -> j = i.
Proof.
  intros Hsane Hcols Hi. split.
  { now apply table_layout. }
  destruct (row_band_read env df0 k fs i Hsane Hcols Hi)
    as (r & p & idx & vals & yy & _ & Hband & Hidx & Hvals).
  exists idx, vals. split; [exact Hband|].
  split. { symmetry. eapply Forall2_length. exact Hvals. }
  split. { apply Hidx. }
  intros j Hj. apply str_nat_inj in Hj. lia.
Qed.

(** C4: every cell of the [i]-th data row is filled exactly when [i] is
    even, for every page geometry and hence wherever the page breaks
    fall. *)
Theorem row_fill_follows_index_parity env (df0 : DataFrame Label Row) k fs i :
  sane_geometry env = true ->
  columns df0 <> [] ->
  i < length (rows df0) ->
  fst (table env (new_world env df0 k fs)) = Ok tt /\
  length (row_cells (length (columns df0)) i
            (data_cells (cells_from env (new_world env df0 k fs))))
  = S (length (columns df0)) /\
  Forall (fun c => fill c = (i mod 2 =? 0))
         (row_cells (length (columns df0)) i
            (data_cells (cells_from env (new_world env df0 k fs)))).
Proof.
  intros Hsane Hcols Hi. split.
  { now apply table_layout. }
  destruct (row_band_read env df0 k fs i Hsane Hcols Hi)
    as (r & p & idx & vals & yy & _ & Hband & Hidx & Hvals).
  rewrite Hband. split.
  - cbn. f_equal. symmetry. eapply Forall2_length. exact Hvals.
  - constructor; [apply Hidx|].
    eapply Forall2_right; [|exact Hvals].
    intros a b Hab. apply Hab.
Qed.

(** C8: the index cell and the value cells of one data row are all
    drawn on one page, at one ordinate. *)
Theorem row_stays_on_one_page env (df0 : DataFrame Label Row) k fs i :
  sane_geometry env = true ->
  columns df0 <> [] ->
  i < length (rows df0) ->
  fst (table env (new_world env df0 k fs)) = Ok tt /\
  exists p yy,
    length (row_cells (length (columns df0)) i
              (data_cells (cells_from env (new_world env df0 k fs))))
    = S (length (columns df0)) /\
    Forall (fun c => on_page c = p /\ at_y c = yy)
           (row_cells (length (columns df0)) i
              (data_cells (cells_from env (new_world env df0 k fs)))).
Proof.
  intros Hsane Hcols Hi. split.
  { now apply table_layout. }
  destruct (row_band_read env df0 k fs i Hsane Hcols Hi)
    as (r & p & idx & vals & yy & _ & Hband & Hidx & Hvals).
  exists p, yy. rewrite Hband. split.
  - cbn. f_equal. symmetry. eapply Forall2_length. exact Hvals.
  - constructor; [split; apply Hidx|].
    eapply Forall2_right; [|exact Hvals].
    intros a b Hab. split; apply Hab.
Qed.

(** C5: the last cell drawn is the closing line, it is the only one, no
    data cell follows it, and its text ends with [len(df)]. *)
Theorem one_total_line_with_row_count env (df0 : DataFrame Label Row) k fs :
  sane_geometry env = true ->
  columns df0 <> [] ->
  fst (table env (new_world env df0 k fs)) = Ok tt /\
  exists pre tot,
    cells_from env (new_world env df0 k fs) = pre ++ [tot] /\
    filter is_total_line (cells_from env (new_world env df0 k fs)) = [tot] /\
    data_cells (cells_from env (new_world env df0 k fs)) = data_cells pre /\
    txt tot = total_prefix ++ str_nat (length (rows df0)).
Proof.
  intros Hsane Hcols.
  destruct (table_layout _ _ str_label str_item env Hsane df0 k fs Hcols)
    as (Hok & _ & _ & _ & _ & pre & tot & Hc & Hpre & Htot & Htxt).
  split; [exact Hok|]. exists pre, tot. rewrite Hc.
  split; [reflexivity|]. split.
  { rewrite filter_app, (filter_none _ _ pre Hpre). cbn. now rewrite Htot. }
  split; [|exact Htxt].
  unfold data_cells. rewrite filter_app. cbn.
  unfold is_total_line in Htot. unfold is_data_cell at 2.
  destruct (border tot); [discriminate|]. cbn. apply app_nil_r.
Qed.

(** C1, as the code has it: the header band of the table is drawn once,
    on page 1; a data row that would pass the trigger closes the page
    with its footer, opens the next one with the page title and is drawn
    under it, with no header band in between. *)
Theorem page_break_repeats_title_only env (df0 : DataFrame Label Row) k fs
    cols cw i row (wd : World Label Row) :
  sane_geometry env = true ->
  columns df0 <> [] ->
  in_footer (pdf wd) = false ->
  0 < page (pdf wd) ->
  will_page_break env 8 (pdf wd) = true ->
  header_band str_label (columns df0) 1
    (filter is_header_cell (cells_from env (new_world env df0 k fs))) /\
  exists wd' f t band,
    data_row str_item env cols cw i row wd = (Ok tt, wd') /\
    content (pdf wd') = content (pdf wd) ++ [f; t] ++ band /\
    furniture f /\ on_page f = page (pdf wd) /\
    furniture t /\ txt t = page_title /\ on_page t = S (page (pdf wd)) /\
    row_band str_item cols i row (S (page (pdf wd))) band /\
    filter is_header_cell ([f; t] ++ band) = [].
Proof.
  intros Hsane Hcols Hin Hp Hbrk. split.
  { now apply table_layout. }
  destruct (data_row_run Label Row env Hsane str_item cols cw i row wd Hin Hp)
    as (wd' & furn & band & p & Hrun & _ & _ & _ & Hc & Hturn & Hband).
  rewrite Hbrk in Hturn.
  destruct Hturn as (f & t & -> & Hf & Hfp & Ht & Htt & Htp & ->).
  exists wd', f, t, band. repeat (split; [assumption|]).
  destruct (row_band_cells _ _ str_item _ _ _ _ _ Hband) as [_ Hkinds].
  destruct (furniture_plain f Hf) as (_ & Hfh & _).
  destruct (furniture_plain t Ht) as (_ & Hth & _).
  cbn [app filter]. rewrite Hfh, Hth. apply filter_none.
  eapply Forall_impl; [|exact Hkinds]. now intros c (_ & ? & _).
Qed.

(** C2, as the code has it: with no column the division raises once the
    first page is open and its title drawn, before any cell of the
    table; the caller then writes no file. *)
Theorem no_columns_fail_after_first_page env out (w : World Label Row) :
  sane_geometry env = true ->
  columns (df w) = [] ->
  table env (new_world env (df w) (clock w) (files w))
  = (Raise ZeroDivisionError,
     mkWorld (first_page env) (df w) (clock w) (files w)) /\
  page (first_page env) = 1 /\
  (exists t, content (first_page env) = [t] /\
     furniture t /\ txt t = page_title /\ on_page t = 1) /\
  fst (generate_pdf_from_data str_label str_item env out w)
  = Raise ZeroDivisionError /\
  files (snd (generate_pdf_from_data str_label str_item env out w)) = files w.
Proof.
  intros Hsane Hcols.
  assert (Hrun : table env (new_world env (df w) (clock w) (files w))
                 = (Raise ZeroDivisionError,
                    mkWorld (first_page env) (df w) (clock w) (files w))).
  { unfold add_products_table, new_world. unfold bind at 1.
    rewrite (add_page_first Label Row env Hsane).
    unfold bind at 1 2. cbn [ask df]. rewrite Hcols. reflexivity. }
  split; [exact Hrun|]. split; [reflexivity|].
  split. { eexists. split; [reflexivity|]. repeat split. }
  unfold generate_pdf_from_data. unfold bind at 1 2 4 5.
  cbn [fst snd]. unfold new_world in Hrun. rewrite Hrun. split; reflexivity.
Qed.

Lemma band_texts (A : Type) (f : A -> text) p yy h bd al fl cols cells :
  Forall2 (fun col c => cell_like p yy h bd al fl (f col) c) cols cells ->
  map txt cells = map f cols.
Proof.
  induction 1 as [|col c cols cells Hc _ IH]; [reflexivity|].
  cbn. f_equal; [apply Hc | exact IH].
Qed.

(** C7: cutting a text twice is cutting it once, a text within the
    limit is kept whole, and what is kept is a prefix of the text with
    nothing appended; the header cells carry the column names cut to 15
    code points and the value cells the values cut to 20, whatever else
    the run depends on. *)
Theorem truncation_is_idempotent env (df0 : DataFrame Label Row) k fs i :
  sane_geometry env = true ->
  columns df0 <> [] ->
  i < length (rows df0) ->
  (forall n s, slice_to n (slice_to n s) = slice_to n s) /\
  (forall n s, length s <= n -> slice_to n s = s) /\
  (forall n s, exists rest,
      s = slice_to n s ++ rest /\
      length (slice_to n s) = Nat.min n (length s)) /\
  (exists mark names,
      filter is_header_cell (cells_from env (new_world env df0 k fs))
      = mark :: names /\
      map txt names
      = map (fun col => slice_to 15 (str_label col)) (columns df0)) /\
  (exists r idx vals,
      nth_error (rows df0) i = Some r /\
      row_cells (length (columns df0)) i
        (data_cells (cells_from env (new_world env df0 k fs))) = idx :: vals /\
      map txt vals
      = map (fun col => slice_to 20 (str_item r col)) (columns df0)).
Proof.
  intros Hsane Hcols Hi. unfold slice_to.
  split. { intros n s. rewrite firstn_firstn, Nat.min_id. reflexivity. }
  split. { intros n s Hlen. now apply firstn_all2. }
  split.
  { intros n s. exists (skipn n s). split.
    - symmetry. apply firstn_skipn.
    - apply length_firstn. }
  split.
  { destruct (table_layout _ _ str_label str_item env Hsane df0 k fs Hcols)
      as (_ & _ & (mark & names & yy & Hh & _ & Hn) & _).
    exists mark, names. split; [exact Hh|].
    exact (band_texts _ _ _ _ _ _ _ _ _ _ Hn). }
  destruct (row_band_read env df0 k fs i Hsane Hcols Hi)
    as (r & p & idx & vals & yy & Hr & Hband & _ & Hvals).
  exists r, idx, vals. split; [exact Hr|]. split; [exact Hband|].
  exact (band_texts _ _ _ _ _ _ _ _ _ _ Hvals).
Qed.

(** C10: the template path is the data path; the result and the store
    it leaves, written document included, do not depend on the
    template. *)
Theorem template_is_ignored env t1 t2 out (w : World Label Row) :
  generate_pdf_from_template str_label str_item env t1 out w
  = generate_pdf_from_data str_label str_item env out w /\
  generate_pdf_from_template str_label str_item env t1 out w
  = generate_pdf_from_template str_label str_item env t2 out w.
Proof. split; reflexivity. Qed.

End Claims.

(** ** The caller's frame *)

Create HintDb frame.

Section Frame.

Variable Label : Type.
Variable Row : Type.
Variable str_label : Label -> text.
Variable str_item : Row -> Label -> text.
Variable env : Env.

Local Abbreviation keeps := (@keeps_frame Label Row).

Lemma keeps_ret (A : Type) (a : A) : keeps (ret a).
Proof. intros w. reflexivity. Qed.

Lemma keeps_raise (A : Type) e : keeps (raise (A := A) e).
Proof. intros w. reflexivity. Qed.

Lemma keeps_gets (A : Type) (f : FPDF -> A) : keeps (gets f).
Proof. intros w. reflexivity. Qed.

Lemma keeps_ask (A : Type) (f : DataFrame Label Row -> A) : keeps (ask f).
Proof. intros w. reflexivity. Qed.

Lemma keeps_modify f : keeps (modify f).
Proof. intros w. reflexivity. Qed.

Lemma keeps_now : keeps (now_text env).
Proof. intros w. reflexivity. Qed.

Lemma keeps_bind (A B : Type) (m : M Label Row A) (k : A -> M Label Row B) :
  keeps m -> (forall a, keeps (k a)) -> keeps (bind m k).
Proof.
  intros Hm Hk w. unfold bind. specialize (Hm w).
  destruct (m w) as [[a|e] w']; cbn in *.
  - now rewrite Hk.
  - exact Hm.
Qed.

Lemma keeps_for_each (A : Type) (l : list A) body :
  (forall v, keeps (body v)) -> keeps (for_each l body).
Proof.
  intros Hbody. induction l as [|v l IH]; cbn [for_each].
  - apply keeps_ret.
  - apply keeps_bind; [apply Hbody | intros _; exact IH].
Qed.

Lemma keeps_for_enumerate (A : Type) (l : list A) body : forall i,
  (forall j v, keeps (body j v)) -> keeps (for_enumerate i l body).
Proof.
  induction l as [|v l IH]; intros i Hbody; cbn [for_enumerate].
  - apply keeps_ret.
  - apply keeps_bind; [apply Hbody | intros _; now apply IH].
Qed.

#[local] Hint Resolve keeps_ret keeps_raise keeps_gets keeps_ask keeps_modify
  keeps_now keeps_bind keeps_for_each keeps_for_enumerate : frame.

Lemma keeps_header_with (cellf : cell_fun Label Row) :
  (forall w h t bd al fl nx ny, keeps (cellf w h t bd al fl nx ny)) ->
  keeps (header_with env cellf).
Proof.
  intros Hc. unfold header_with, set_font, set_text_color, ln.
  auto 10 with frame.
Qed.

Lemma keeps_footer_with (cellf : cell_fun Label Row) :
  (forall w h t bd al fl nx ny, keeps (cellf w h t bd al fl nx ny)) ->
  keeps (footer_with env cellf).
Proof.
  intros Hc. unfold footer_with, set_y, set_font, set_text_color.
  auto 12 with frame.
Qed.

Lemma keeps_add_page_with footer header :
  keeps footer -> keeps header ->
  keeps (add_page_with env footer header).
Proof.
  intros Hf Hh. unfold add_page_with.
  apply keeps_bind; [auto with frame|]. intros s.
  apply keeps_bind; [destruct (0 <? page s); auto 10 with frame|].
  auto 10 with frame.
Qed.

Lemma keeps_cell_at d : forall w h t bd al fl nx ny,
  keeps (cell_at env d w h t bd al fl nx ny).
Proof.
  induction d as [|d IH]; intros w h t bd al fl nx ny; cbn [cell_at];
    (apply keeps_bind; [auto with frame|]); intros brk;
    (apply keeps_bind; [|auto with frame]); destruct brk; auto with frame.
  unfold perform_page_break.
  apply keeps_bind; [auto with frame|]. intros x0.
  apply keeps_bind; [|auto with frame].
  apply keeps_add_page_with;
    [apply keeps_footer_with | apply keeps_header_with]; exact IH.
Qed.

Lemma keeps_cell w h t bd al fl nx ny :
  keeps (cell env w h t bd al fl nx ny).
Proof. apply keeps_cell_at. Qed.

Lemma keeps_add_page : keeps (add_page env).
Proof.
  apply keeps_add_page_with;
    [apply keeps_footer_with | apply keeps_header_with]; apply keeps_cell.
Qed.

#[local] Hint Resolve keeps_cell keeps_add_page : frame.

Lemma keeps_table : keeps (add_products_table str_label str_item env).
Proof.
  unfold add_products_table.
  apply keeps_bind; [auto with frame|]. intros _.
  apply keeps_bind; [auto with frame|]. intros cols.
  apply keeps_bind.
  { unfold truediv. destruct (length cols); auto with frame. }
  intros cw.
  apply keeps_bind.
  { unfold table_header, set_fill_color, set_text_color, set_font, ln.
    auto 12 with frame. }
  intros _. unfold set_text_color, set_font.
  apply keeps_bind; [auto with frame|]. intros _.
  apply keeps_bind; [auto with frame|]. intros _.
  apply keeps_bind; [auto with frame|]. intros rs.
  apply keeps_bind.
  { apply keeps_for_enumerate. intros j v. unfold data_row, set_fill_color, ln.
    apply keeps_bind; [destruct (j mod 2 =? 0); auto with frame|].
    auto 10 with frame. }
  intros _. unfold total_line, set_text_color, set_font, ln.
  auto 12 with frame.
Qed.

(** C9: whatever the store, the geometry and the outcome, the data
    frame the caller passed is, after [add_products_table] and after
    [generate_pdf_from_data], the data frame it was: same columns, same
    rows in the same order. *)
Theorem layout_keeps_frame out (w : World Label Row) :
  df (snd (add_products_table str_label str_item env w)) = df w /\
  columns (df (snd (add_products_table str_label str_item env w)))
  = columns (df w) /\
  rows (df (snd (add_products_table str_label str_item env w)))
  = rows (df w) /\
  df (snd (generate_pdf_from_data str_label str_item env out w)) = df w.
Proof.
  pose proof (keeps_table w) as Ht. rewrite Ht.
  repeat split.
  assert (Hg : keeps (generate_pdf_from_data str_label str_item env out)).
  { unfold generate_pdf_from_data.
    apply keeps_bind; [intros w'; reflexivity|]. intros _.
    apply keeps_bind; [apply keeps_table|]. intros _.
    apply keeps_bind; [|auto with frame]. unfold output.
    apply keeps_bind; [auto with frame|]. intros pg.
    apply keeps_bind; [destruct (pg =? 0); auto with frame|]. intros _.
    apply keeps_bind; [auto with frame|]. intros _.
    apply keeps_bind.
    { apply keeps_footer_with. apply keeps_cell. }
    intros _. apply keeps_bind; [auto with frame|]. intros _ w'. reflexivity. }
  apply Hg.
Qed.

End Frame.

(** ** Column widths *)

Lemma exact_widths_fill (n : nat) :
  1 <= n -> (exact_widths_sum n == inject_Z (Z.of_nat available_width))%Q.
Proof.
  intros Hn. unfold exact_widths_sum, exact_col_width.
  assert (Hnz : ~ (inject_Z (Z.of_nat n) == 0)%Q).
  { unfold Qeq. cbn. lia. }
  change (available_width - num_col_width) with 178.
  change num_col_width with 12. change available_width with 190.
  field. exact Hnz.
Qed.

Lemma float_widths_near :
  forallb (fun n => near_available_width (widths_sum n)) (seq 1 1000) = true.
Proof. vm_compute. reflexivity. Qed.

(** C6, as the code has it: in exact arithmetic the index column and
    the [n] data columns add up to the available width, 190; the code
    takes the quotient in binary64, where the widths added up stay
    within 2^-20 of 190 for up to 1000 columns. *)
Theorem widths_fill_available_width (n : nat) :
  1 <= n ->
  (exact_widths_sum n == inject_Z (Z.of_nat available_width))%Q /\
  (n <= 1000 -> near_available_width (widths_sum n) = true).
Proof.
  intros Hn. split; [now apply exact_widths_fill|].
  intros Hle. pose proof float_widths_near as H.
  rewrite forallb_forall in H. apply H. apply in_seq. lia.
Qed.

(** ** The document, page by page *)

Section Walk.

Variable Label : Type.
Variable Row : Type.
Variable env : Env.

Hypothesis sane : sane_geometry env = true.

Local Abbreviation W := (World Label Row).

Lemma break_x k s : x (break_state env k s) = x s.
Proof. unfold break_state, open_page, restore_style. destruct (font s); reflexivity. Qed.

Lemma break_font k s f : font s = Some f -> font (break_state env k s) = Some f.
Proof. intros H. unfold break_state, open_page, restore_style. rewrite H. reflexivity. Qed.

Lemma break_fill_color k s : fill_color (break_state env k s) = fill_color s.
Proof. unfold break_state, open_page, restore_style. destruct (font s); reflexivity. Qed.

Lemma break_text_color k s : text_color (break_state env k s) = text_color s.
Proof. unfold break_state, open_page, restore_style. destruct (font s); reflexivity. Qed.

Lemma pages_furniture_next k0 p :
  pages_furniture env k0 (S p)
  = pages_furniture env k0 p ++ page_furniture env k0 (S p).
Proof.
  unfold pages_furniture. rewrite seq_S, flat_map_app. cbn [flat_map Nat.add].
  now rewrite app_nil_r.
Qed.

Lemma sorted_snoc l a :
  StronglySorted le l -> Forall (fun b => b <= a) l ->
  StronglySorted le (l ++ [a]).
Proof.
  induction 1 as [|b l Hl IH Hb]; intros Ha; cbn.
  - repeat constructor.
  - inversion Ha as [|? ? Hba Ha']; subst. constructor; [now apply IH|].
    apply Forall_app. split; [exact Hb | now constructor].
Qed.

Lemma furniture_sound c :
  border c = false -> align c = AlignC -> sound_cell env c.
Proof.
  intros Hb Ha. unfold sound_cell, is_header_cell, is_data_cell.
  rewrite Hb, Ha.
  split; [intros [H0|H0]; discriminate | split; intros H0; discriminate].
Qed.

(** A cell that is not furniture, drawn on the page the generator is on
    or on a later one, extends what has been drawn. *)
Lemma drawn_snoc k0 places s k s' c :
  drawn_so_far env k0 places s k ->
  content s' = content s ++ [c] ->
  page s' = page s -> in_footer s' = in_footer s ->
  on_page c = page s ->
  is_furniture_cell c = false ->
  sound_cell env c ->
  drawn_so_far env k0
    (places ++ if border c then [place c] else []) s' k.
Proof.
  intros ((Hin & Hp & Hk & Hfurn) & Hpl & Hsound & Hpages & Hsorted)
         Hc Hpg Hin' Hon Hnf Hs.
  unfold drawn_so_far, paged. rewrite Hc, Hpg, Hin'.
  repeat split; try assumption.
  - rewrite filter_app. cbn. rewrite Hnf, app_nil_r. exact Hfurn.
  - rewrite filter_app, map_app, Hpl. cbn. now destruct (border c).
  - apply Forall_app. split; [exact Hsound | now constructor].
  - apply Forall_app. split; [exact Hpages|]. constructor; [lia | constructor].
  - rewrite map_app. apply sorted_snoc; [exact Hsorted|].
    cbn. rewrite Hon. apply Forall_map. exact Hpages.
Qed.

(** A page break extends what has been drawn by a footer and a title. *)
Lemma drawn_break k0 places s k :
  drawn_so_far env k0 places s k ->
  drawn_so_far env k0 places (break_state env k s) (S k).
Proof.
  intros ((Hin & Hp & Hk & Hfurn) & Hpl & Hsound & Hpages & Hsorted).
  unfold drawn_so_far, paged.
  rewrite break_in_footer, break_page, break_content.
  set (f0 := footer_cell env k (with_in_footer true s)).
  set (t0 := title_cell env _).
  assert (Ht0 : on_page t0 = S (page s)).
  { subst t0. rewrite title_cell_page. unfold restore_style.
    now destruct (font s). }
  repeat split.
  - lia.
  - lia.
  - rewrite filter_app, map_app, Hfurn. cbn [filter map app].
    change (is_furniture_cell f0) with true.
    change (is_furniture_cell t0) with true.
    cbn [map app]. unfold page_and_text at 1 2. rewrite Ht0.
    replace (S (page s) - 1) with (S (page s - 1)) by lia.
    rewrite pages_furniture_next, <- app_assoc.
    replace (S (page s - 1)) with (page s) by lia.
    unfold page_furniture. cbn [app]. subst f0. cbn [txt on_page footer_cell drawn_cell].
    rewrite Hk, <- !app_assoc. reflexivity.
  - rewrite filter_app. cbn [filter]. change (border f0) with false.
    change (border t0) with false. rewrite app_nil_r. exact Hpl.
  - apply Forall_app. split; [exact Hsound|].
    constructor; [now apply furniture_sound|].
    constructor; [now apply furniture_sound | constructor].
  - apply Forall_app. split.
    + eapply Forall_impl; [|exact Hpages]. intros c Hc. cbn beta in *. lia.
    + constructor; [cbn; lia|]. constructor; [lia | constructor].
  - rewrite map_app. cbn [map]. rewrite Ht0.
    change [on_page f0; S (page s)] with ([on_page f0] ++ [S (page s)]).
    rewrite app_assoc. apply sorted_snoc.
    + apply sorted_snoc; [exact Hsorted|]. apply Forall_map.
      eapply Forall_impl; [|exact Hpages]. intros c Hc. exact Hc.
    + apply Forall_app. split.
      * apply Forall_map. eapply Forall_impl; [|exact Hpages].
        intros c Hc. cbn beta in *. lia.
      * constructor; [cbn; lia | constructor].
Qed.

Lemma drawn_same k0 places s k s' :
  drawn_so_far env k0 places s k ->
  page s' = page s -> in_footer s' = in_footer s -> content s' = content s ->
  drawn_so_far env k0 places s' k.
Proof.
  unfold drawn_so_far, paged. intros H Hp Hi Hc. rewrite Hp, Hi, Hc. exact H.
Qed.

Lemma leads_bind P Q R (m : M Label Row unit) (k : unit -> M Label Row unit) :
  leads P m Q -> leads Q (k tt) R -> leads P (bind m k) R.
Proof.
  intros Hm Hk w Hw. destruct (Hm w Hw) as (w1 & Hrun & Hq).
  destruct (Hk w1 Hq) as (w2 & Hrun' & Hr).
  exists w2. unfold bind. rewrite Hrun. split; assumption.
Qed.

Lemma leads_modify (P Q : W -> Prop) g :
  (forall w, P w -> Q (mkWorld (g (pdf w)) (df w) (clock w) (files w))) ->
  leads P (modify g) Q.
Proof. intros H w Hw. eexists. split; [reflexivity | now apply H]. Qed.

Lemma leads_ask (A : Type) (f : DataFrame Label Row -> A) P Q k df0 :
  (forall w, P w -> df w = df0) ->
  leads P (k (f df0)) Q ->
  leads P (bind (ask f) k) Q.
Proof.
  intros Hdf Hk w Hw. unfold bind, ask. rewrite (Hdf w Hw). now apply Hk.
Qed.

Lemma leads_weaken (P P' Q Q' : W -> Prop) m :
  (forall w, P w -> P' w) -> (forall w, Q' w -> Q w) ->
  leads P' m Q' -> leads P m Q.
Proof.
  intros HP HQ Hm w Hw. destruct (Hm w (HP w Hw)) as (w' & Hrun & Hq).
  exists w'. split; [exact Hrun | now apply HQ].
Qed.

(** A cell of the table drawn at a stage leads to the next stage. *)
Lemma leads_cell k0 places xc f fc tc (df0 : DataFrame Label Row) fs
    wj h t bd al fl nx ny :
  (bd = true \/ al = AlignL) ->
  (page_break_trigger env <? t_margin env + 10 + 5 + h)%float = false ->
  (forall c, height c = h -> border c = bd -> fill c = fl ->
             d_font c = Some f -> d_fill_color c = fc -> d_text_color c = tc ->
             (is_header_cell c = true -> header_style env c) /\
             (is_data_cell c = true -> data_style env c)) ->
  leads (stage env k0 places xc f fc tc df0 fs)
        (cell env wj h t bd al fl nx ny)
        (stage env k0
           (places ++ if bd then [(xc, width_at env wj xc)] else [])
           (match nx with
            | XRight => (xc + width_at env wj xc)%float
            | XLMargin => l_margin env
            end)
           f fc tc df0 fs).
Proof.
  intros Hkind Hroom Hok w (Hd & Hx & Hf & Hfc & Htc & Hdf & Hfs).
  destruct (sane_depth env sane) as [d Hd'].
  pose proof Hd as ((Hin & Hp & _) & _).
  assert (Hnf : forall s0, is_furniture_cell (drawn_cell env wj h t bd al fl s0)
                           = false).
  { intros s0. unfold is_furniture_cell. cbn.
    destruct Hkind as [-> | ->]; [reflexivity | apply andb_false_r]. }
  assert (Hstyle : forall s0, font s0 = Some f -> fill_color s0 = fc ->
             text_color s0 = tc ->
             (page_break_trigger env <? y s0 + h)%float = false ->
             sound_cell env (drawn_cell env wj h t bd al fl s0)).
  { intros s0 H1 H2 H3 H4. unfold sound_cell.
    split; [intros _; exact H4|].
    apply Hok; cbn; congruence. }
  destruct (will_page_break env h (pdf w)) eqn:Hbrk.
  - exists (mkWorld (render_cell env wj h t bd al fl nx ny
                       (break_state env (clock w) (pdf w)))
                    (df w) (S (clock w)) (files w)).
    split.
    { unfold cell. rewrite Hd'. now apply cell_breaks. }
    set (s0 := break_state env (clock w) (pdf w)).
    assert (Hd0 : drawn_so_far env k0 places s0 (S (clock w)))
      by now apply drawn_break.
    unfold stage. cbn [pdf df clock files].
    split.
    { replace (xc, width_at env wj xc)
        with (place (drawn_cell env wj h t bd al fl s0)).
      2:{ unfold place. cbn. unfold cell_width, width_at. subst s0.
          rewrite break_x, Hx. reflexivity. }
      replace bd with (border (drawn_cell env wj h t bd al fl s0)) at 1
        by reflexivity.
      eapply drawn_snoc; try exact Hd0; try reflexivity.
      - apply Hnf.
      - apply Hstyle; subst s0.
        + now apply break_font.
        + now rewrite break_fill_color.
        + now rewrite break_text_color.
        + rewrite break_y. exact Hroom. }
    unfold render_cell. cbn [x font fill_color text_color]. subst s0.
    unfold cell_width, width_at.
    rewrite break_x, Hx, break_fill_color, break_text_color,
      (break_font _ _ _ Hf).
    repeat split; try assumption; now destruct nx.
  - exists (mkWorld (render_cell env wj h t bd al fl nx ny (pdf w))
                    (df w) (clock w) (files w)).
    split.
    { unfold cell. now apply cell_fits. }
    unfold stage. cbn [pdf df clock files].
    split.
    { replace (xc, width_at env wj xc)
        with (place (drawn_cell env wj h t bd al fl (pdf w))).
      2:{ unfold place. cbn. unfold cell_width, width_at.
          rewrite Hx. reflexivity. }
      replace bd with (border (drawn_cell env wj h t bd al fl (pdf w))) at 1
        by reflexivity.
      eapply drawn_snoc; try exact Hd; try reflexivity.
      - apply Hnf.
      - apply Hstyle; try assumption.
        unfold will_page_break in Hbrk. rewrite Hin in Hbrk.
        cbn in Hbrk. now rewrite andb_true_r in Hbrk. }
    unfold render_cell. cbn [x font fill_color text_color].
    unfold cell_width, width_at. rewrite Hx.
    repeat split; try assumption; now destruct nx.
Qed.

Lemma leads_ret (P Q : W -> Prop) :
  (forall w, P w -> Q w) -> leads P (ret tt) Q.
Proof. intros H w Hw. exists w. split; [reflexivity | now apply H]. Qed.

Lemma stage_moved k0 places xc xc' f fc tc (df0 : DataFrame Label Row) fs w g :
  stage env k0 places xc f fc tc df0 fs w ->
  page (g (pdf w)) = page (pdf w) ->
  in_footer (g (pdf w)) = in_footer (pdf w) ->
  content (g (pdf w)) = content (pdf w) ->
  x (g (pdf w)) = xc' ->
  font (g (pdf w)) = font (pdf w) ->
  fill_color (g (pdf w)) = fill_color (pdf w) ->
  text_color (g (pdf w)) = text_color (pdf w) ->
  stage env k0 places xc' f fc tc df0 fs
        (mkWorld (g (pdf w)) (df w) (clock w) (files w)).
Proof.
  intros (Hd & Hx & Hf & Hfc & Htc & Hdf & Hfs) H1 H2 H3 H4 H5 H6 H7.
  unfold stage. cbn [pdf df clock files]. rewrite H5, H6, H7.
  split; [eapply drawn_same; eassumption|]. repeat split; assumption.
Qed.

Lemma leads_ln k0 places xc f fc tc (df0 : DataFrame Label Row) fs h :
  leads (stage env k0 places xc f fc tc df0 fs) (ln env h)
        (stage env k0 places (l_margin env) f fc tc df0 fs).
Proof.
  apply leads_modify. intros w Hw. eapply stage_moved; try exact Hw; reflexivity.
Qed.

Lemma leads_set_font k0 places xc f fc tc (df0 : DataFrame Label Row) fs
    fam st sz :
  leads (stage env k0 places xc f fc tc df0 fs) (set_font fam st sz)
        (stage env k0 places xc (mkFont fam st sz) fc tc df0 fs).
Proof.
  apply leads_modify. intros w (Hd & Hx & Hf & Hfc & Htc & Hdf & Hfs).
  unfold stage. cbn [pdf df clock files].
  split; [eapply drawn_same; try exact Hd; reflexivity|].
  repeat split; assumption.
Qed.

Lemma leads_set_fill_color k0 places xc f fc tc (df0 : DataFrame Label Row) fs
    r g b :
  leads (stage env k0 places xc f fc tc df0 fs) (set_fill_color r g b)
        (stage env k0 places xc f (r, g, b) tc df0 fs).
Proof.
  apply leads_modify. intros w (Hd & Hx & Hf & Hfc & Htc & Hdf & Hfs).
  unfold stage. cbn [pdf df clock files].
  split; [eapply drawn_same; try exact Hd; reflexivity|].
  repeat split; assumption.
Qed.

Lemma leads_set_text_color k0 places xc f fc tc (df0 : DataFrame Label Row) fs
    r g b :
  leads (stage env k0 places xc f fc tc df0 fs) (set_text_color r g b)
        (stage env k0 places xc f fc (r, g, b) df0 fs).
Proof.
  apply leads_modify. intros w (Hd & Hx & Hf & Hfc & Htc & Hdf & Hfs).
  unfold stage. cbn [pdf df clock files].
  split; [eapply drawn_same; try exact Hd; reflexivity|].
  repeat split; assumption.
Qed.

(** Cells of one width drawn side by side. *)
Lemma leads_cells (A : Type) (t : A -> text) cols cw h al fl k0 f fc tc
    (df0 : DataFrame Label Row) fs :
  (page_break_trigger env <? t_margin env + 10 + 5 + h)%float = false ->
  (forall c, height c = h -> border c = true -> fill c = fl ->
             d_font c = Some f -> d_fill_color c = fc -> d_text_color c = tc ->
             (is_header_cell c = true -> header_style env c) /\
             (is_data_cell c = true -> data_style env c)) ->
  forall places xc,
  leads (stage env k0 places xc f fc tc df0 fs)
        (for_each cols (fun col =>
           cell env cw h (t col) true al fl XRight YTop))
        (stage env k0
           (places ++ band_places env xc (repeat cw (length cols)))
           (band_end env xc (repeat cw (length cols)))
           f fc tc df0 fs).
Proof.
  intros Hroom Hok. induction cols as [|col cols IH]; intros places xc.
  - cbn. rewrite app_nil_r. apply leads_ret. auto.
  - cbn [for_each length repeat band_places band_end].
    eapply leads_bind.
    + apply leads_cell; [now left | exact Hroom | exact Hok].
    + cbn beta iota. eapply leads_weaken; [| |apply IH].
      * intros w Hw. exact Hw.
      * intros w Hw. rewrite <- app_assoc in Hw. exact Hw.
Qed.

(** A band: a leading cell, a cell per column, a line feed. *)
Lemma leads_band (A : Type) (t : A -> text) cols w0 cw h t0 al al' fl k0 f fc tc
    (df0 : DataFrame Label Row) fs places xc :
  (page_break_trigger env <? t_margin env + 10 + 5 + h)%float = false ->
  (forall c, height c = h -> border c = true -> fill c = fl ->
             d_font c = Some f -> d_fill_color c = fc -> d_text_color c = tc ->
             (is_header_cell c = true -> header_style env c) /\
             (is_data_cell c = true -> data_style env c)) ->
  leads (stage env k0 places xc f fc tc df0 fs)
        (bind (cell env w0 h t0 true al fl XRight YTop)
           (fun _ =>
              bind (for_each cols (fun col =>
                      cell env cw h (t col) true al' fl XRight YTop))
                   (fun _ => ln env None)))
        (stage env k0
           (places ++ band_places env xc (w0 :: repeat cw (length cols)))
           (l_margin env) f fc tc df0 fs).
Proof.
  intros Hroom Hok.
  eapply leads_bind.
  { apply leads_cell; [now left | exact Hroom | exact Hok]. }
  cbn beta iota. eapply leads_bind.
  { apply leads_cells; [exact Hroom | exact Hok]. }
  cbn beta. eapply leads_weaken; [| |apply leads_ln].
  - intros w Hw. exact Hw.
  - intros w Hw. cbn [band_places]. rewrite <- app_assoc in Hw. exact Hw.
Qed.

Variable str_label : Label -> text.
Variable str_item : Row -> Label -> text.

Lemma concat_repeat_snoc (A : Type) (l : list A) b :
  concat (repeat l b) ++ l = concat (repeat l (S b)).
Proof.
  induction b as [|b IH]; cbn.
  - now rewrite app_nil_r.
  - cbn in IH. now rewrite <- app_assoc, IH.
Qed.

Lemma header_cells_styled c :
  height c = 10%float -> border c = true -> fill c = true ->
  d_font c = Some (mkFont (font_name env) Bold 8) ->
  d_fill_color c = (52, 73, 94)%Z -> d_text_color c = (255, 255, 255)%Z ->
  (is_header_cell c = true -> header_style env c) /\
  (is_data_cell c = true -> data_style env c).
Proof.
  intros Hh Hb Hf Hfo Hfc Htc. unfold is_data_cell. rewrite Hh, Hb. split.
  - intros _. repeat split; assumption.
  - cbn. discriminate.
Qed.

Lemma data_cells_styled fl fc c :
  (fl = true -> fc = (245, 245, 245)%Z) ->
  height c = 8%float -> border c = true -> fill c = fl ->
  d_font c = Some (mkFont (font_name env) Regular 7) ->
  d_fill_color c = fc -> d_text_color c = (0, 0, 0)%Z ->
  (is_header_cell c = true -> header_style env c) /\
  (is_data_cell c = true -> data_style env c).
Proof.
  intros Hgrey Hh Hb Hf Hfo Hfc Htc. unfold is_header_cell. rewrite Hh, Hb.
  split.
  - cbn. discriminate.
  - intros _. repeat split; try assumption. intros Hfill.
    rewrite Hfc. apply Hgrey. congruence.
Qed.

Lemma plain_cells_styled c :
  border c = false ->
  (is_header_cell c = true -> header_style env c) /\
  (is_data_cell c = true -> data_style env c).
Proof.
  intros Hb. unfold is_header_cell, is_data_cell. rewrite Hb.
  split; cbn; discriminate.
Qed.

Lemma leads_table_header cols cw k0 places f fc tc
    (df0 : DataFrame Label Row) fs :
  leads (stage env k0 places (l_margin env) f fc tc df0 fs)
        (table_header str_label env cols cw)
        (stage env k0
           (places ++ band_places env (l_margin env)
                        (float_of_nat num_col_width :: repeat cw (length cols)))
           (l_margin env) (mkFont (font_name env) Bold 8)
           (52, 73, 94)%Z (255, 255, 255)%Z df0 fs).
Proof.
  unfold table_header.
  eapply leads_bind; [apply leads_set_fill_color|]. cbn beta.
  eapply leads_bind; [apply leads_set_text_color|]. cbn beta.
  eapply leads_bind; [apply leads_set_font|]. cbn beta.
  apply (leads_band Label (fun col => slice_to 15 (str_label col))).
  - exact (band_fits env sane).
  - intros c. apply header_cells_styled.
Qed.

(** The stage between two rows: [b] bands drawn, the row font and black
    text in force, whatever the fill colour. *)
Lemma leads_data_row cols cw i row k0 b (df0 : DataFrame Label Row) fs :
  leads (fun w => exists fc,
           stage env k0
             (concat (repeat (band_places env (l_margin env)
                (float_of_nat num_col_width :: repeat cw (length cols))) b))
             (l_margin env) (mkFont (font_name env) Regular 7) fc
             (0, 0, 0)%Z df0 fs w)
        (data_row str_item env cols cw i row)
        (fun w => exists fc,
           stage env k0
             (concat (repeat (band_places env (l_margin env)
                (float_of_nat num_col_width :: repeat cw (length cols))) (S b)))
             (l_margin env) (mkFont (font_name env) Regular 7) fc
             (0, 0, 0)%Z df0 fs w).
Proof.
  intros w [fc Hw]. unfold data_row.
  destruct (i mod 2 =? 0).
  - unfold bind at 1 2. cbn [set_fill_color modify ret].
    destruct (leads_set_fill_color _ _ _ _ _ _ _ _ 245%Z 245%Z 245%Z w Hw)
      as (w1 & Hrun1 & Hw1).
    cbn [set_fill_color modify] in Hrun1. injection Hrun1 as <-.
    destruct (leads_band Label (fun col => slice_to 20 (str_item row col))
                cols (float_of_nat num_col_width) cw 8%float
                (str_nat (i + 1)) AlignC AlignL true k0 _ _ _ df0 fs _ _
                (row_fits env sane)
                (fun c => data_cells_styled true _ c (fun _ => eq_refl))
                _ Hw1)
      as (w2 & Hrun2 & Hw2).
    exists w2. split; [exact Hrun2|]. eexists.
    rewrite <- concat_repeat_snoc. exact Hw2.
  - unfold bind at 1. cbn [ret].
    assert (Hno : false = true -> fc = (245, 245, 245)%Z) by discriminate.
    destruct (leads_band Label (fun col => slice_to 20 (str_item row col))
                cols (float_of_nat num_col_width) cw 8%float
                (str_nat (i + 1)) AlignC AlignL false k0 _ _ _ df0 fs _ _
                (row_fits env sane)
                (fun c => data_cells_styled false fc c Hno)
                _ Hw)
      as (w2 & Hrun2 & Hw2).
    exists w2. split; [exact Hrun2|]. eexists.
    rewrite <- concat_repeat_snoc. exact Hw2.
Qed.

Lemma leads_rows cols cw k0 (df0 : DataFrame Label Row) fs rs : forall i b,
  leads (fun w => exists fc,
           stage env k0
             (concat (repeat (band_places env (l_margin env)
                (float_of_nat num_col_width :: repeat cw (length cols))) b))
             (l_margin env) (mkFont (font_name env) Regular 7) fc
             (0, 0, 0)%Z df0 fs w)
        (for_enumerate i rs (data_row str_item env cols cw))
        (fun w => exists fc,
           stage env k0
             (concat (repeat (band_places env (l_margin env)
                (float_of_nat num_col_width :: repeat cw (length cols)))
                (b + length rs)))
             (l_margin env) (mkFont (font_name env) Regular 7) fc
             (0, 0, 0)%Z df0 fs w).
Proof.
  induction rs as [|r rs IH]; intros i b.
  - cbn [for_enumerate length]. rewrite Nat.add_0_r. apply leads_ret. auto.
  - cbn [for_enumerate length]. eapply leads_bind.
    + apply leads_data_row.
    + cbn beta. replace (b + S (length rs)) with (S b + length rs) by lia.
      apply IH.
Qed.

Lemma leads_total_line k0 places f tc (df0 : DataFrame Label Row) fs :
  leads (fun w => exists fc,
           stage env k0 places (l_margin env) f fc tc df0 fs w)
        (total_line env)
        (fun w => exists fc,
           stage env k0 places (l_margin env)
                 (mkFont (font_name env) Bold 12) fc (44, 62, 80)%Z df0 fs w).
Proof.
  intros w [fc Hw]. unfold total_line.
  assert (H : leads (stage env k0 places (l_margin env) f fc tc df0 fs)
                    (total_line env)
                    (stage env k0 places (l_margin env)
                       (mkFont (font_name env) Bold 12) fc (44, 62, 80)%Z
                       df0 fs)).
  { unfold total_line.
    eapply leads_bind; [apply leads_ln|]. cbn beta.
    eapply leads_bind; [apply leads_set_font|]. cbn beta.
    eapply leads_bind; [apply leads_set_text_color|]. cbn beta.
    eapply leads_ask with (df0 := df0).
    { intros w0 Hw0. apply Hw0. }
    eapply leads_weaken; [| |apply leads_cell].
    - intros w0 Hw0. exact Hw0.
    - intros w0 Hw0. cbn iota in Hw0. rewrite app_nil_r in Hw0. exact Hw0.
    - now right.
    - exact (band_fits env sane).
    - intros c _ Hb _ _ _ _. now apply plain_cells_styled. }
  destruct (H w Hw) as (w' & Hrun & Hw'). exists w'.
  split; [exact Hrun | now exists fc].
Qed.

Lemma first_page_stage k0 (df0 : DataFrame Label Row) fs :
  stage env k0 [] (l_margin env) (mkFont (font_name env) Bold 16)
        (0, 0, 0)%Z (0, 0, 0)%Z df0 fs
        (mkWorld (first_page env) df0 k0 fs).
Proof.
  unfold stage. cbn [pdf df clock files].
  split; [|repeat split].
  unfold drawn_so_far, paged. cbn.
  repeat split.
  - lia.
  - lia.
  - constructor; [now apply furniture_sound | constructor].
  - constructor; [apply Nat.le_refl | constructor].
  - repeat constructor.
Qed.

(** The table, from a new generator to the closing line. *)
Lemma table_walk (df0 : DataFrame Label Row) k0 fs :
  columns df0 <> [] ->
  exists w' fc,
    add_products_table str_label str_item env (new_world env df0 k0 fs)
    = (Ok tt, w') /\
    stage env k0
      (concat (repeat (table_places env (length (columns df0)))
                      (S (length (rows df0)))))
      (l_margin env) (mkFont (font_name env) Bold 12) fc (44, 62, 80)%Z
      df0 fs w'.
Proof.
  intros Hcols. unfold add_products_table, new_world.
  unfold bind at 1. rewrite (add_page_first Label Row env sane).
  unfold bind at 1 2. cbn [ask df]. unfold truediv.
  destruct (columns df0) as [|c cols] eqn:Hcs; [congruence|].
  cbn [ret]. set (n := length (c :: cols)).
  change (float_quot (available_width - num_col_width) n) with (col_width n).
  assert (H : leads (stage env k0 [] (l_margin env)
                       (mkFont (font_name env) Bold 16)
                       (0, 0, 0)%Z (0, 0, 0)%Z df0 fs)
                (bind (table_header str_label env (c :: cols) (col_width n))
                   (fun _ =>
                    bind (set_text_color 0 0 0)
                      (fun _ =>
                       bind (set_font (font_name env) Regular 7)
                         (fun _ =>
                          bind (ask (rows (Row := Row)))
                            (fun rs =>
                             bind (for_enumerate 0 rs
                                     (data_row str_item env (c :: cols)
                                               (col_width n)))
                               (fun _ => total_line env))))))
                (fun w => exists fc,
                   stage env k0
                     (concat (repeat (table_places env n)
                                     (S (length (rows df0)))))
                     (l_margin env) (mkFont (font_name env) Bold 12) fc
                     (44, 62, 80)%Z df0 fs w)).
  { eapply leads_bind; [apply leads_table_header|]. cbn beta.
    eapply leads_bind; [apply leads_set_text_color|]. cbn beta.
    eapply leads_bind; [apply leads_set_font|]. cbn beta.
    eapply leads_ask with (df0 := df0).
    { intros w0 Hw0. apply Hw0. }
    eapply leads_bind.
    - eapply leads_weaken; [| |apply (leads_rows (c :: cols) (col_width n) k0
                                        df0 fs (rows df0) 0 1)].
      + intros w0 Hw0. eexists. cbn [repeat concat]. rewrite app_nil_r.
        exact Hw0.
      + intros w0 Hw0. exact Hw0.
    - cbn beta. apply leads_total_line. }
  destruct (H _ (first_page_stage k0 df0 fs)) as (w' & Hrun & fc & Hw').
  exists w', fc. split; [exact Hrun | exact Hw'].
Qed.

Lemma output_run path (w : W) :
  0 < page (pdf w) ->
  output env path w
  = (Ok tt,
     mkWorld (with_in_footer false
                (footer_state env (clock w) (with_in_footer true (pdf w))))
             (df w) (S (clock w))
             ((path, content (pdf w)
                     ++ [footer_cell env (clock w) (with_in_footer true (pdf w))])
              :: files w)).
Proof.
  intros Hp. unfold output. unfold bind at 1 2. cbn [gets].
  destruct (page (pdf w) =? 0) eqn:Hz; [apply Nat.eqb_eq in Hz; lia|].
  cbn [ret]. unfold bind at 1 2. cbn [modify]. unfold footer, cell.
  rewrite footer_run by reflexivity. reflexivity.
Qed.

(** What [generate_pdf_from_data] writes for a frame with a column. *)
Lemma document_walk out (w : W) :
  columns (df w) <> [] ->
  exists doc last,
    generate_pdf_from_data str_label str_item env out w
    = (Ok out, mkWorld last (df w) (clock w + page last)
                       ((out, doc) :: files w)) /\
    (exists foot,
       doc = table_cells str_label str_item env
               (new_world env (df w) (clock w) (files w)) ++ [foot] /\
       furniture foot) /\
    0 < page last /\
    map page_and_text (filter is_furniture_cell doc)
    = pages_furniture env (clock w) (page last) /\
    map place (filter border doc)
    = concat (repeat (table_places env (length (columns (df w))))
                     (S (length (rows (df w))))) /\
    Forall (sound_cell env) doc /\
    StronglySorted le (map on_page doc).
Proof.
  intros Hcols.
  destruct (table_walk (df w) (clock w) (files w) Hcols)
    as (wt & fc & Hrun & Hd & Hx & Hf & Hfc & Htc & Hdf & Hfs).
  destruct Hd as ((Hin & Hp & Hk & Hfurn) & Hpl & Hsound & Hpages & Hsorted).
  unfold generate_pdf_from_data. unfold bind at 1 2.
  cbn [fst snd]. unfold new_world in Hrun. rewrite Hrun.
  unfold bind at 1. rewrite (output_run out wt Hp). cbn [ret].
  rewrite Hdf, Hfs.
  set (foot := footer_cell env (clock wt) (with_in_footer true (pdf wt))).
  set (lastS := with_in_footer false _).
  assert (Hlast : page lastS = page (pdf wt)) by reflexivity.
  exists (content (pdf wt) ++ [foot]), lastS. rewrite Hlast. split.
  { replace (clock w + page (pdf wt)) with (S (clock wt)) by lia.
    reflexivity. }
  split.
  { exists foot. split; [|split; reflexivity].
    unfold table_cells, new_world. rewrite Hrun. reflexivity. }
  split; [exact Hp|].
  split.
  { assert (Hpf : pages_furniture env (clock w) (page (pdf wt))
                  = pages_furniture env (clock w) (page (pdf wt) - 1)
                    ++ page_furniture env (clock w) (page (pdf wt))).
    { destruct (page (pdf wt)) as [|q]; [lia|].
      rewrite pages_furniture_next. cbn [Nat.sub]. now rewrite Nat.sub_0_r. }
    rewrite filter_app, map_app, Hfurn, Hpf, <- app_assoc.
    unfold page_furniture. subst foot. cbn [filter map app].
    change (is_furniture_cell (footer_cell env (clock wt)
                                 (with_in_footer true (pdf wt)))) with true.
    cbn [map app]. unfold page_and_text at 1.
    cbn [on_page txt footer_cell drawn_cell]. rewrite Hk. reflexivity. }
  split.
  { rewrite filter_app. cbn. rewrite app_nil_r. exact Hpl. }
  split.
  { apply Forall_app. split; [exact Hsound|].
    constructor; [now apply furniture_sound | constructor]. }
  rewrite map_app. apply sorted_snoc; [exact Hsorted|].
  apply Forall_map. exact Hpages.
Qed.

End Walk.

(** ** The written document *)

Section Document.

Variable Label : Type.
Variable Row : Type.
Variable str_label : Label -> text.
Variable str_item : Row -> Label -> text.

Local Abbreviation generate := (generate_pdf_from_data str_label str_item).


(** X2: in the written document the page furniture is, in drawing
    order, the title and then the footer of page 1, of page 2, and so on
    to the last page; the footer of page [p] shows [p] and the time of
    the [p]-th clock read of the run; and no cell is drawn on a page
    before that of the cell drawn before it. *)
Theorem pages_are_numbered_in_order env out (w : World Label Row) :
  sane_geometry env = true ->
  columns (df w) <> [] ->
  exists doc pages,
    files (snd (generate env out w)) = (out, doc) :: files w /\
    0 < pages /\
    map page_and_text (filter is_furniture_cell doc)
    = pages_furniture env (clock w) pages /\
    clock (snd (generate env out w)) = clock w + pages /\
    StronglySorted le (map on_page doc).
Proof.
  intros Hsane Hcols.
  destruct (document_walk Label Row env Hsane str_label str_item out w Hcols)
    as (doc & last & Hrun & _ & Hp & Hfurn & _ & _ & Hsorted).
  exists doc, (page last). rewrite Hrun. cbn [snd files clock].
  repeat split; assumption.
Qed.

(** X3: every header cell of the written document is drawn in bold 8,
    white on dark blue and filled; every data cell in regular 7 and
    black, light grey where filled: also the cells drawn right after a
    page break, whose title is drawn in bold 16. *)
Theorem cells_wear_their_style env out (w : World Label Row) :
  sane_geometry env = true ->
  columns (df w) <> [] ->
  exists doc,
    files (snd (generate env out w)) = (out, doc) :: files w /\
    Forall (fun c => (is_header_cell c = true -> header_style env c) /\
                     (is_data_cell c = true -> data_style env c)) doc.
Proof.
  intros Hsane Hcols.
  destruct (document_walk Label Row env Hsane str_label str_item out w Hcols)
    as (doc & last & Hrun & _ & _ & _ & _ & Hsound & _).
  exists doc. rewrite Hrun. cbn [snd files]. split; [reflexivity|].
  eapply Forall_impl; [|exact Hsound]. intros c Hc. apply Hc.
Qed.

(** X4: the bordered cells of the written document are, in drawing
    order, one band for the header and one per row, and every band
    stands at the same places: the first cell at the left margin, each
    next cell where the one before ends.  Columns line up down the
    table, across page breaks. *)
Theorem columns_line_up env out (w : World Label Row) :
  sane_geometry env = true ->
  columns (df w) <> [] ->
  exists doc,
    files (snd (generate env out w)) = (out, doc) :: files w /\
    map place (filter border doc)
    = concat (repeat (table_places env (length (columns (df w))))
                     (S (length (rows (df w))))).
Proof.
  intros Hsane Hcols.
  destruct (document_walk Label Row env Hsane str_label str_item out w Hcols)
    as (doc & last & Hrun & _ & _ & _ & Hpl & _).
  exists doc. rewrite Hrun. cbn [snd files]. split; [reflexivity | exact Hpl].
Qed.

(** X5: every cell of the table and the closing line end at or above
    the page-break trigger: below it, in the bottom margin, only the
    centred, borderless footers and titles can stand. *)
Theorem table_stays_above_trigger env out (w : World Label Row) :
  sane_geometry env = true ->
  columns (df w) <> [] ->
  exists doc,
    files (snd (generate env out w)) = (out, doc) :: files w /\
    Forall (fun c => border c = true \/ align c = AlignL ->
                     within_page env c) doc.
Proof.
  intros Hsane Hcols.
  destruct (document_walk Label Row env Hsane str_label str_item out w Hcols)
    as (doc & last & Hrun & _ & _ & _ & _ & Hsound & _).
  exists doc. rewrite Hrun. cbn [snd files]. split; [reflexivity|].
  eapply Forall_impl; [|exact Hsound]. intros c Hc. apply Hc.
Qed.

End Document.

(** ** The font the generator settles on *)

Section FontChoice.

Variable h : Host.

Lemma try_fonts_name dir options : forall fonts,
  fst (try_fonts h dir options fonts)
  = match find (usable h dir) options with
    | Some (name, _, _) => name
    | None => helvetica
    end.
Proof.
  induction options as [|[[name regular] bold] rest IH]; intros fonts.
  - reflexivity.
  - cbn [try_fonts find usable].
    destruct (exists_path h (path_div dir regular)); cbn [andb]; [|apply IH].
    destruct (loads_font h (path_div dir regular)); cbn [andb]; [|apply IH].
    destruct (exists_path h (path_div dir bold)); cbn [negb orb];
      [|reflexivity].
    destruct (loads_font h (path_div dir bold)); [reflexivity | apply IH].
Qed.

Lemma try_fonts_faces dir options : forall fonts,
  (forall n, ~ In (n, Bold) fonts) ->
  match find (usable h dir) options with
  | Some (name, _, bold) =>
      In (name, Regular) (snd (try_fonts h dir options fonts)) /\
      (In (name, Bold) (snd (try_fonts h dir options fonts))
       <-> exists_path h (path_div dir bold) = true) /\
      forall n, In (n, Bold) (snd (try_fonts h dir options fonts)) -> n = name
  | None => forall n, ~ In (n, Bold) (snd (try_fonts h dir options fonts))
  end.
Proof.
  induction options as [|[[name regular] bold] rest IH]; intros fonts Hno.
  - exact Hno.
  - assert (Hno1 : forall n, ~ In (n, Bold) (fonts ++ [(name, Regular)])).
    { intros n Hn. apply in_app_or in Hn. destruct Hn as [Hn | [Hn | []]].
      - exact (Hno n Hn).
      - discriminate. }
    cbn [try_fonts find usable].
    destruct (exists_path h (path_div dir regular)); cbn [andb];
      [|now apply IH].
    destruct (loads_font h (path_div dir regular)); cbn [andb];
      [|now apply IH].
    destruct (exists_path h (path_div dir bold)) eqn:Hb; cbn [negb orb].
    + destruct (loads_font h (path_div dir bold)); [|now apply IH].
      cbn [snd]. split; [|split; [split|]].
      * apply in_or_app. left. apply in_or_app. right. now left.
      * intros _. exact Hb.
      * intros _. apply in_or_app. right. now left.
      * intros n Hn. apply in_app_or in Hn. destruct Hn as [Hn | [Hn | []]].
        -- now destruct (Hno1 n).
        -- congruence.
    + cbn [snd]. split; [|split; [split|]].
      * apply in_or_app. right. now left.
      * intros Hn. now destruct (Hno1 name).
      * intros Hn. rewrite Hb in Hn. discriminate Hn.
      * intros n Hn. now destruct (Hno1 n).
Qed.

(** X6: [_setup_font] settles on the first of Arial, DejaVuSans and
    Calibri whose regular file exists and registers and whose bold
    file, when there is one, registers too; on Helvetica when there is
    none. *)
Theorem setup_font_takes_first_usable :
  fst (setup_font h)
  = match find (usable h (get_fonts_dir h)) font_options with
    | Some (name, _, _) => name
    | None => helvetica
    end.
Proof. apply try_fonts_name. Qed.

(** X7: the family taken has its regular face registered, and its bold
    face exactly when its bold file exists: a family without a bold
    file is taken all the same, with no bold face.  No bold face of any
    other family is ever registered, and none at all when Helvetica is
    the fallback. *)
Theorem taken_family_faces :
  match find (usable h (get_fonts_dir h)) font_options with
  | Some (name, _, bold) =>
      fst (setup_font h) = name /\
      In (name, Regular) (snd (setup_font h)) /\
      (In (name, Bold) (snd (setup_font h))
       <-> exists_path h (path_div (get_fonts_dir h) bold) = true) /\
      forall n, In (n, Bold) (snd (setup_font h)) -> n = name
  | None =>
      fst (setup_font h) = helvetica /\
      forall n, ~ In (n, Bold) (snd (setup_font h))
  end.
Proof.
  pose proof (try_fonts_faces (get_fonts_dir h) font_options []
                (fun n Hn => Hn)) as Hfaces.
  pose proof (try_fonts_name (get_fonts_dir h) font_options []) as Hname.
  unfold setup_font.
  destruct (find (usable h (get_fonts_dir h)) font_options)
    as [[[name regular] bold]|]; split; assumption.
Qed.

End FontChoice.

(** ** The command line *)

Section Cli.

Variable Label : Type.
Variable Row : Type.
Variable str_label : Label -> text.
Variable str_item : Row -> Label -> text.
Variable h : Host.
Variable read_csv : Path -> Outcome (DataFrame Label Row).
Variable read_text : Path -> Outcome text.

Local Abbreviation run_main := (main str_label str_item h read_csv read_text).

Lemma read_template_done a :
  (exists_path h (template a) = true ->
   exists c, read_text (template a) = Done c) ->
  exists t, read_template h read_text a = Done t.
Proof.
  intros Hread. unfold read_template, validate_template.
  destruct (exists_path h (template a)); cbn; [|eauto].
  destruct (Hread eq_refl) as [c ->]. eauto.
Qed.

(** X8: when the CSV file is missing, cannot be read, or reads as a
    frame without rows or without columns, [main] exits with status 1
    and leaves the process as it was: no directory made, no clock read,
    no file written, no viewer launched. *)
Theorem main_rejects_bad_csv e a (p : Process Label Row) :
  exists_path h (csv a) = false \/
  (exists err, read_csv (csv a) = Failed err) \/
  (exists d, read_csv (csv a) = Done d /\ (columns d = [] \/ rows d = [])) ->
  run_main e a p = (1, p).
Proof.
  intros Hbad. unfold main, validate_csv.
  destruct (exists_path h (csv a)); [|reflexivity]. cbn [negb].
  destruct Hbad as [Hbad | [[err Herr] | (d & Hd & Hempty)]].
  - discriminate.
  - now rewrite Herr.
  - rewrite Hd. unfold empty.
    destruct Hempty as [-> | ->]; cbn; [|rewrite orb_true_r]; reflexivity.
Qed.


(** X10: a template file that exists and cannot be read stops [main]
    with status 1 before anything is made, whatever the CSV file
    holds. *)
Theorem main_rejects_unreadable_template e a (p : Process Label Row) err :
  exists_path h (template a) = true ->
  read_text (template a) = Failed err ->
  run_main e a p = (1, p).
Proof.
  intros Hex Hread. unfold main, read_template, validate_template.
  rewrite Hex, Hread. cbn [negb].
  destruct (validate_csv h read_csv (csv a)); reflexivity.
Qed.

(** X11: between templates that are missing or read, the choice changes
    nothing: whether the file exists and what it holds leave the exit
    status, the document and the process of [main] the same. *)
Theorem main_ignores_the_template e csv0 t1 t2 out0 quiet
    (p : Process Label Row) :
  (exists_path h t1 = true -> exists c, read_text t1 = Done c) ->
  (exists_path h t2 = true -> exists c, read_text t2 = Done c) ->
  run_main e (mkArgs csv0 t1 out0 quiet) p
  = run_main e (mkArgs csv0 t2 out0 quiet) p.
Proof.
  intros Hread1 Hread2. unfold main. cbn [csv output_arg no_open].
  destruct (validate_csv h read_csv csv0) as [d|err]; [|reflexivity].
  destruct (read_template_done (mkArgs csv0 t1 out0 quiet) Hread1)
    as [c1 H1].
  destruct (read_template_done (mkArgs csv0 t2 out0 quiet) Hread2)
    as [c2 H2].
  rewrite H1, H2. unfold generate_pdf_from_template.
  destruct (truthy c1), (truthy c2); reflexivity.
Qed.

End Cli.

(** ** The sample inputs, run *)

(** C1 as stated fails: of thirty-one rows the last is drawn on page 2,
    which carries the page title and no header cell of the table. *)
Lemma second_page_lacks_header_band :
  fst (run_table a4 long_shop) = Ok tt /\
  ~ header_band_on_every_page (cells_of a4 long_shop).
Proof.
  split; [vm_compute; reflexivity|]. intros H.
  assert (Hex : existsb (fun c => on_page c =? 2) (cells_of a4 long_shop) = true)
    by (vm_compute; reflexivity).
  assert (Hall : forallb (fun c => negb ((on_page c =? 2) && is_header_cell c))
                         (cells_of a4 long_shop) = true)
    by (vm_compute; reflexivity).
  apply existsb_exists in Hex. destruct Hex as (c & Hc & Hp).
  apply Nat.eqb_eq in Hp.
  destruct (H c Hc) as (c' & Hc' & Hp' & Hh).
  rewrite forallb_forall in Hall. specialize (Hall c' Hc').
  rewrite Hp', Hp, Hh in Hall. clear - Hall. discriminate Hall.
Qed.

(** C2 as stated fails: with no column the call raises, yet page 1 is
    open and its title drawn. *)
Lemma zero_columns_leave_a_page :
  fst (run_table a4 no_columns) = Raise ZeroDivisionError /\
  page (pdf (snd (run_table a4 no_columns))) = 1 /\
  map txt (cells_of a4 no_columns) = [page_title] /\
  cells_of a4 no_columns <> [].
Proof.
  split; [vm_compute; reflexivity|]. split; [vm_compute; reflexivity|].
  split; [vm_compute; reflexivity|]. vm_compute. discriminate.
Qed.

(** C6 as stated fails: the header cells of a three-column table are 12
    and three times the binary64 quotient 178/3 wide, and these add up
    to more than 190. *)
Lemma three_columns_overshoot :
  map width (filter is_header_cell (cells_of a4 three_columns))
  = [float_of_nat num_col_width; col_width 3; col_width 3; col_width 3] /\
  (float_of_nat available_width <? widths_sum 3)%float = true.
Proof. split; vm_compute; reflexivity. Qed.

Lemma page_break_repeats_title_only_witness :
  sane_geometry a4 = true /\
  columns shop <> [] /\
  in_footer (pdf low_cursor) = false /\
  0 < page (pdf low_cursor) /\
  will_page_break a4 8 (pdf low_cursor) = true /\
  (header_band str_text (columns shop) 1
     (filter is_header_cell (table_cells str_text (item_at shop_labels) a4 (new_world a4 shop 0 []))) /\
   exists wd' f t band,
     data_row (item_at shop_labels) a4 shop_labels (col_width 2) 30
              (hd [] shop_rows) low_cursor = (Ok tt, wd') /\
     content (pdf wd') = content (pdf low_cursor) ++ [f; t] ++ band /\
     furniture f /\ on_page f = page (pdf low_cursor) /\
     furniture t /\ txt t = page_title /\
     on_page t = S (page (pdf low_cursor)) /\
     row_band (item_at shop_labels) shop_labels 30 (hd [] shop_rows)
              (S (page (pdf low_cursor))) band /\
     filter is_header_cell ([f; t] ++ band) = []).
Proof.
  split; [reflexivity|]. split; [discriminate|]. split; [reflexivity|].
  split; [cbn; lia|]. split; [reflexivity|].
  apply page_break_repeats_title_only;
    [reflexivity | discriminate | reflexivity | cbn; lia | reflexivity].
Defined.

Lemma no_columns_fail_after_first_page_witness :
  sane_geometry a4 = true /\
  columns (df (new_world a4 no_columns 0 [])) = [] /\
  (add_products_table str_text (item_at shop_labels) a4
     (new_world a4 (df (new_world a4 no_columns 0 []))
                (clock (new_world a4 no_columns 0 []))
                (files (new_world a4 no_columns 0 [])))
   = (Raise ZeroDivisionError,
      mkWorld (first_page a4) (df (new_world a4 no_columns 0 []))
              (clock (new_world a4 no_columns 0 []))
              (files (new_world a4 no_columns 0 []))) /\
   page (first_page a4) = 1 /\
   (exists t, content (first_page a4) = [t] /\
      furniture t /\ txt t = page_title /\ on_page t = 1) /\
   fst (generate_pdf_from_data str_text (item_at shop_labels) a4 (text_of [111; 46; 112; 100; 102])
          (new_world a4 no_columns 0 []))
   = Raise ZeroDivisionError /\
   files (snd (generate_pdf_from_data str_text (item_at shop_labels) a4
                 (text_of [111; 46; 112; 100; 102])
                 (new_world a4 no_columns 0 [])))
   = files (new_world a4 no_columns 0 [])).
Proof.
  split; [reflexivity|]. split; [reflexivity|].
  apply no_columns_fail_after_first_page; reflexivity.
Defined.

Lemma index_cell_counts_from_one_witness :
  sane_geometry a4 = true /\
  columns shop <> [] /\
  2 < length (rows shop) /\
  (fst (add_products_table str_text (item_at shop_labels) a4 (new_world a4 shop 0 [])) = Ok tt /\
   exists idx vals,
     row_cells (length (columns shop)) 2 (data_cells (table_cells str_text (item_at shop_labels) a4 (new_world a4 shop 0 [])))
     = idx :: vals /\
     length vals = length (columns shop) /\
     txt idx = str_nat (2 + 1) /\
     forall j, str_nat (j + 1) = str_nat (2 + 1) -> j = 2).
Proof.
  split; [reflexivity|]. split; [discriminate|]. split; [cbn; lia|].
  apply index_cell_counts_from_one; [reflexivity | discriminate | cbn; lia].
Defined.

Lemma row_fill_follows_index_parity_witness :
  sane_geometry a4 = true /\
  columns long_shop <> [] /\
  30 < length (rows long_shop) /\
  (fst (add_products_table str_text (item_at shop_labels) a4 (new_world a4 long_shop 0 [])) = Ok tt /\
   length (row_cells (length (columns long_shop)) 30
             (data_cells (table_cells str_text (item_at shop_labels) a4 (new_world a4 long_shop 0 []))))
   = S (length (columns long_shop)) /\
   Forall (fun c => fill c = (30 mod 2 =? 0))
          (row_cells (length (columns long_shop)) 30
             (data_cells (table_cells str_text (item_at shop_labels) a4 (new_world a4 long_shop 0 []))))).
Proof.
  split; [reflexivity|]. split; [discriminate|]. split; [cbn; lia|].
  apply row_fill_follows_index_parity; [reflexivity | discriminate | cbn; lia].
Defined.

Lemma one_total_line_with_row_count_witness :
  sane_geometry a4 = true /\
  columns shop <> [] /\
  (fst (add_products_table str_text (item_at shop_labels) a4 (new_world a4 shop 0 [])) = Ok tt /\
   exists pre tot,
     (table_cells str_text (item_at shop_labels) a4 (new_world a4 shop 0 [])) = pre ++ [tot] /\
     filter is_total_line (table_cells str_text (item_at shop_labels) a4 (new_world a4 shop 0 [])) = [tot] /\
     data_cells (table_cells str_text (item_at shop_labels) a4 (new_world a4 shop 0 [])) = data_cells pre /\
     txt tot = total_prefix ++ str_nat (length (rows shop))).
Proof.
  split; [reflexivity|]. split; [discriminate|].
  apply one_total_line_with_row_count; [reflexivity | discriminate].
Defined.

Lemma widths_fill_available_width_witness :
  1 <= 3 /\
  ((exact_widths_sum 3 == inject_Z (Z.of_nat available_width))%Q /\
   (3 <= 1000 -> near_available_width (widths_sum 3) = true)).
Proof. split; [lia|]. apply widths_fill_available_width. lia. Defined.

Lemma truncation_is_idempotent_witness :
  sane_geometry a4 = true /\
  columns shop <> [] /\
  0 < length (rows shop) /\
  ((forall n s, slice_to n (slice_to n s) = slice_to n s) /\
   (forall n s, length s <= n -> slice_to n s = s) /\
   (forall n s, exists rest,
       s = slice_to n s ++ rest /\
       length (slice_to n s) = Nat.min n (length s)) /\
   (exists mark names,
       filter is_header_cell (table_cells str_text (item_at shop_labels) a4 (new_world a4 shop 0 [])) = mark :: names /\
       map txt names
       = map (fun col => slice_to 15 (str_text col)) (columns shop)) /\
   (exists r idx vals,
       nth_error (rows shop) 0 = Some r /\
       row_cells (length (columns shop)) 0 (data_cells (table_cells str_text (item_at shop_labels) a4 (new_world a4 shop 0 [])))
       = idx :: vals /\
       map txt vals
       = map (fun col => slice_to 20 (item_at shop_labels r col))
             (columns shop))).
Proof.
  split; [reflexivity|]. split; [discriminate|]. split; [cbn; lia|].
  apply truncation_is_idempotent; [reflexivity | discriminate | cbn; lia].
Defined.

Lemma row_stays_on_one_page_witness :
  sane_geometry a4 = true /\
  columns long_shop <> [] /\
  30 < length (rows long_shop) /\
  (fst (add_products_table str_text (item_at shop_labels) a4 (new_world a4 long_shop 0 [])) = Ok tt /\
   exists p yy,
     length (row_cells (length (columns long_shop)) 30
               (data_cells (table_cells str_text (item_at shop_labels) a4 (new_world a4 long_shop 0 []))))
     = S (length (columns long_shop)) /\
     Forall (fun c => on_page c = p /\ at_y c = yy)
            (row_cells (length (columns long_shop)) 30
               (data_cells (table_cells str_text (item_at shop_labels) a4 (new_world a4 long_shop 0 []))))).
Proof.
  split; [reflexivity|]. split; [discriminate|]. split; [cbn; lia|].
  apply row_stays_on_one_page; [reflexivity | discriminate | cbn; lia].
Defined.


Lemma pages_are_numbered_in_order_witness :
  sane_geometry a4 = true /\
  columns (df (new_world a4 long_shop 0 [])) <> [] /\
  (exists doc pages,
     files (snd (generate_pdf_from_data str_text (item_at shop_labels) a4 (text_of [111; 46; 112; 100; 102]) (new_world a4 long_shop 0 []))) = ((text_of [111; 46; 112; 100; 102]), doc) :: files (new_world a4 long_shop 0 []) /\
     0 < pages /\
     map page_and_text (filter is_furniture_cell doc)
     = pages_furniture a4 (clock (new_world a4 long_shop 0 [])) pages /\
     clock (snd (generate_pdf_from_data str_text (item_at shop_labels) a4 (text_of [111; 46; 112; 100; 102]) (new_world a4 long_shop 0 []))) = clock (new_world a4 long_shop 0 []) + pages /\
     StronglySorted le (map on_page doc)).
Proof.
  split; [reflexivity|]. split; [discriminate|].
  apply pages_are_numbered_in_order; [reflexivity | discriminate].
Defined.

Lemma cells_wear_their_style_witness :
  sane_geometry a4 = true /\
  columns (df (new_world a4 long_shop 0 [])) <> [] /\
  (exists doc,
     files (snd (generate_pdf_from_data str_text (item_at shop_labels) a4 (text_of [111; 46; 112; 100; 102]) (new_world a4 long_shop 0 []))) = ((text_of [111; 46; 112; 100; 102]), doc) :: files (new_world a4 long_shop 0 []) /\
     Forall (fun c => (is_header_cell c = true -> header_style a4 c) /\
                      (is_data_cell c = true -> data_style a4 c)) doc).
Proof.
  split; [reflexivity|]. split; [discriminate|].
  apply cells_wear_their_style; [reflexivity | discriminate].
Defined.

Lemma columns_line_up_witness :
  sane_geometry a4 = true /\
  columns (df (new_world a4 long_shop 0 [])) <> [] /\
  (exists doc,
     files (snd (generate_pdf_from_data str_text (item_at shop_labels) a4 (text_of [111; 46; 112; 100; 102]) (new_world a4 long_shop 0 []))) = ((text_of [111; 46; 112; 100; 102]), doc) :: files (new_world a4 long_shop 0 []) /\
     map place (filter border doc)
     = concat (repeat (table_places a4 (length (columns (df (new_world a4 long_shop 0 [])))))
                      (S (length (rows (df (new_world a4 long_shop 0 []))))))).
Proof.
  split; [reflexivity|]. split; [discriminate|].
  apply columns_line_up; [reflexivity | discriminate].
Defined.

Lemma table_stays_above_trigger_witness :
  sane_geometry a4 = true /\
  columns (df (new_world a4 long_shop 0 [])) <> [] /\
  (exists doc,
     files (snd (generate_pdf_from_data str_text (item_at shop_labels) a4 (text_of [111; 46; 112; 100; 102]) (new_world a4 long_shop 0 []))) = ((text_of [111; 46; 112; 100; 102]), doc) :: files (new_world a4 long_shop 0 []) /\
     Forall (fun c => border c = true \/ align c = AlignL ->
                      within_page a4 c) doc).
Proof.
  split; [reflexivity|]. split; [discriminate|].
  apply table_stays_above_trigger; [reflexivity | discriminate].
Defined.

Lemma main_rejects_bad_csv_witness :
  exists_path linux_box (csv missing_args) = false /\
  main (fun c => c) (item_at shop_labels) linux_box read_shop read_page
    a4 missing_args idle = (1, idle).
Proof.
  split; [reflexivity|].
  apply (main_rejects_bad_csv _ _ (fun c => c) (item_at shop_labels)
           linux_box read_shop read_page a4 missing_args idle).
  left. reflexivity.
Defined.


Lemma main_rejects_unreadable_template_witness :
  exists_path linux_box (template torn_args) = true /\
  read_page (template torn_args) = Failed ValueError /\
  main (fun c => c) (item_at shop_labels) linux_box read_shop read_page
    a4 torn_args idle = (1, idle).
Proof.
  split; [reflexivity|]. split; [reflexivity|].
  apply (main_rejects_unreadable_template _ _ (fun c => c)
           (item_at shop_labels) linux_box read_shop read_page a4 torn_args
           idle ValueError); reflexivity.
Defined.

Lemma main_ignores_the_template_witness :
  exists_path linux_box shop_html = true /\
  read_page shop_html = Done (text_of [60; 112; 62]) /\
  exists_path linux_box (template missing_args) = false /\
  main (fun c => c) (item_at shop_labels) linux_box read_shop read_page a4
    (mkArgs shop_csv shop_html None true) idle
  = main (fun c => c) (item_at shop_labels) linux_box read_shop read_page a4
      (mkArgs shop_csv (template missing_args) None true) idle.
Proof.
  split; [reflexivity|]. split; [reflexivity|]. split; [reflexivity|].
  apply (main_ignores_the_template _ _ (fun c => c) (item_at shop_labels)
           linux_box read_shop read_page a4 shop_csv shop_html
           (template missing_args) None true idle).
  - intros _. exists (text_of [60; 112; 62]). reflexivity.
  - discriminate.
Defined.
